(** * GameDevVizier: the request handlers of [main.py]

    A shallow embedding of the Flask application in [src/main.py]: the
    start-up code that resolves the credential and builds the completion
    client, [analyze_game], [process_game_analysis] and the route handlers.

    Python values decoded from JSON are an inductive type, exceptions are
    values of [exn], and every effect of a handler (reading the module-level
    bindings, [os.environ], the clock and the random source, printing, and
    calling the completion service) is explicit in a state-and-error monad
    over [World].  Text is held as its bytes in UTF-8, and [print] raises on
    a text that standard output cannot encode. *)

From Stdlib Require Import ZArith NArith List String Ascii Bool Lia.
From Stdlib Require Import Floats.
From Stdlib Require DecimalString HexadecimalString DecimalPos DecimalN.
From Stdlib Require Strings.Byte.
Import ListNotations.

#[local] Set Warnings "-inexact-float,-register-all,-abstract-large-number".
#[local] Open Scope string_scope.

(** ** Python values *)

(** What [request.json] can hold, and what the handlers put in a response:
    [None], booleans, integers, floats, text, lists and dicts with text keys.
    A dict keeps its insertion order, so it is a list of bindings; a lookup
    takes the first binding of the key. *)
Inductive pyval : Type :=
| PNone
| PBool (b : bool)
| PInt (z : Z)
| PFloat (f : float)
| PStr (s : string)
| PList (l : list pyval)
| PDict (d : list (string * pyval)).

Definition dict : Type := list (string * pyval).

Fixpoint dict_get (d : dict) (k : string) : option pyval :=
  match d with
  | [] => None
  | (k', v) :: d' => if String.eqb k' k then Some v else dict_get d' k
  end.

Definition dict_has (d : dict) (k : string) : bool :=
  match dict_get d k with Some _ => true | None => false end.

(** [x is None] *)
Definition is_None (v : pyval) : bool :=
  match v with PNone => true | _ => false end.

(** [type(v).__name__], as it appears in the interpreter's messages. *)
Definition type_name (v : pyval) : string :=
  match v with
  | PNone => "NoneType"
  | PBool _ => "bool"
  | PInt _ => "int"
  | PFloat _ => "float"
  | PStr _ => "str"
  | PList _ => "list"
  | PDict _ => "dict"
  end.

(** The characters that cannot be typed inside a string literal here. *)
Definition dq : string := String "034"%char EmptyString.
Definition sq : string := String "039"%char EmptyString.
Definition nl : string := String "010"%char EmptyString.

(** ** Exceptions and results *)

(** The handlers tell [ValueError] (and its subclasses) from every other
    [Exception]; the other constructors name the exceptions the interpreter
    itself raises on the paths modelled here.  Each carries [str(e)]. *)
Inductive exn : Type :=
| ValueError (msg : string)
| TypeError (msg : string)
| KeyError (msg : string)
| IndexError (msg : string)
| OtherError (msg : string).

(** [str(e)] *)
Definition exn_str (e : exn) : string :=
  match e with
  | ValueError m | TypeError m | KeyError m | IndexError m | OtherError m => m
  end.

(** [isinstance(e, ValueError)] *)
Definition is_ValueError (e : exn) : bool :=
  match e with ValueError _ => true | _ => false end.

Inductive result (A : Type) : Type :=
| Ok (a : A)
| Raise (e : exn).
Arguments Ok {A} a.
Arguments Raise {A} e.

(** [needle in hay] on text: [needle] occurs in [hay]. *)
Fixpoint str_contains (needle hay : string) : bool :=
  String.prefix needle hay ||
  match hay with
  | EmptyString => false
  | String _ hay' => str_contains needle hay'
  end.

(** [PStr k == v] for a list element [v]: only text equals text. *)
Definition eq_str (k : string) (v : pyval) : bool :=
  match v with PStr s => String.eqb s k | _ => false end.

(** [field in data] for a text [field].  A dict tests its keys, a list its
    elements, text tests for a substring; the other values are not
    containers (message of CPython 3.12). *)
Definition py_contains (data : pyval) (field : string) : result bool :=
  match data with
  | PDict d => Ok (dict_has d field)
  | PList l => Ok (existsb (eq_str field) l)
  | PStr s => Ok (str_contains field s)
  | _ => Raise (TypeError ("argument of type " ++ sq ++ type_name data ++ sq
                             ++ " is not iterable"))
  end.

(** [data[field]] for a text [field] (messages of CPython 3.12). *)
Definition py_getitem (data : pyval) (field : string) : result pyval :=
  match data with
  | PDict d =>
      match dict_get d field with
      | Some v => Ok v
      | None => Raise (KeyError (sq ++ field ++ sq))
      end
  | PList _ => Raise (TypeError "list indices must be integers or slices, not str")
  | PStr _ => Raise (TypeError ("string indices must be integers, not " ++ sq ++ "str" ++ sq))
  | _ => Raise (TypeError (sq ++ type_name data ++ sq ++ " object is not subscriptable"))
  end.

(** [l[0]] *)
Definition list_first {A : Type} (l : list A) : result A :=
  match l with
  | x :: _ => Ok x
  | [] => Raise (IndexError "list index out of range")
  end.

(** [bool(os.environ.get(name))]: a variable counts when it is bound to a
    non-empty text. *)
Definition truthy (v : option string) : bool :=
  match v with
  | Some EmptyString | None => false
  | Some _ => true
  end.

(** [a or b] *)
Definition py_or (a b : option string) : option string :=
  if truthy a then a else b.

(** [os.environ.get(name)] *)
Fixpoint environ_get (env : list (string * string)) (name : string) : option string :=
  match env with
  | [] => None
  | (k, v) :: env' => if String.eqb k name then Some v else environ_get env' name
  end.

(** ** Number formatting *)

(** [s.rjust(width, "0")]: what the [0] flag of a [%]-conversion does to a
    number that has no sign. *)
Definition zfill (width : nat) (s : string) : string :=
  String.concat "" (repeat "0" (width - String.length s)) ++ s.

(** ['%d' % n] for [n >= 0] *)
Definition format_d (n : Z) : string :=
  DecimalString.NilZero.string_of_uint (N.to_uint (Z.to_N n)).

(** ['%0<width>d' % n] for [n >= 0] *)
Definition format_0d (width : nat) (n : Z) : string :=
  zfill width (format_d n).

(** ['%x' % n] *)
Definition format_x (n : N) : string :=
  HexadecimalString.NilZero.string_of_uint (N.to_hex_uint n).

(** ['%032x' % n] *)
Definition format_032x (n : N) : string := zfill 32 (format_x n).

(** ** [uuid.uuid4] and [str] of a UUID (the standard library's [uuid.py]) *)

Module Uuid.

(** [int.from_bytes(b, "big")] *)
Definition int_from_bytes (b : list Byte.byte) : N :=
  fold_left (fun acc x => (acc * 256 + Byte.to_N x)%N) b 0%N.

(** [UUID(bytes=os.urandom(16), version=4)]: the variant bits are set to
    RFC 4122 and the version nibble to 4. *)
Definition uuid4 (random_bytes : list Byte.byte) : N :=
  let i := int_from_bytes random_bytes in
  let i := N.ldiff i (N.shiftl 0xc000 48) in
  let i := N.lor i (N.shiftl 0x8000 48) in
  let i := N.ldiff i (N.shiftl 0xf000 64) in
  N.lor i (N.shiftl 4 76).

(** [UUID.__str__]: the 32 hexadecimal digits in groups of 8-4-4-4-12. *)
Definition str (u : N) : string :=
  let hex := format_032x u in
  substring 0 8 hex ++ "-" ++ substring 8 4 hex ++ "-" ++ substring 12 4 hex
    ++ "-" ++ substring 16 4 hex ++ "-" ++ substring 20 (String.length hex - 20) hex.

End Uuid.

(** ** [datetime] and [strftime] *)

Record datetime : Type := mk_datetime {
  year : Z;
  month : Z;
  day : Z;
  hour : Z;
  minute : Z;
  second : Z;
  microsecond : Z
}.

Definition is_leap (y : Z) : bool :=
  ((y mod 4 =? 0) && negb (y mod 100 =? 0) || (y mod 400 =? 0))%Z.

Definition days_in_month (y m : Z) : Z :=
  match m with
  | 1 | 3 | 5 | 7 | 8 | 10 | 12 => 31
  | 4 | 6 | 9 | 11 => 30
  | 2 => if is_leap y then 29 else 28
  | _ => 0
  end%Z.

(** The values a [datetime] object can hold ([MINYEAR] is 1, [MAXYEAR] 9999). *)
Definition valid_datetime (t : datetime) : bool :=
  ((1 <=? year t) && (year t <=? 9999) && (1 <=? month t) && (month t <=? 12)
   && (1 <=? day t) && (day t <=? days_in_month (year t) (month t))
   && (0 <=? hour t) && (hour t <? 24) && (0 <=? minute t) && (minute t <? 60)
   && (0 <=? second t) && (second t <? 60)
   && (0 <=? microsecond t) && (microsecond t <? 1000000))%Z.

(** [%B] in the C locale *)
Definition month_name (m : Z) : string :=
  match m with
  | 1 => "January" | 2 => "February" | 3 => "March" | 4 => "April"
  | 5 => "May" | 6 => "June" | 7 => "July" | 8 => "August"
  | 9 => "September" | 10 => "October" | 11 => "November" | 12 => "December"
  | _ => ""
  end%Z.

(** The hour on the 12-hour clock, [%I] without its padding. *)
Definition hour12 (h : Z) : Z :=
  (if h mod 12 =? 0 then 12 else h mod 12)%Z.

(** One conversion of [strftime], as the C library does it: [%Y] is the
    year in decimal with no padding (so fewer than four digits before the
    year 1000), the other numbers are on two digits, [%B] and [%p] are those
    of the C locale.  A character that is no conversion handled here is
    copied with its percent sign. *)
Definition strftime_directive (c : ascii) (t : datetime) : string :=
  match c with
  | "B"%char => month_name (month t)
  | "d"%char => format_0d 2 (day t)
  | "m"%char => format_0d 2 (month t)
  | "Y"%char => format_d (year t)
  | "H"%char => format_0d 2 (hour t)
  | "I"%char => format_0d 2 (hour12 (hour t))
  | "M"%char => format_0d 2 (minute t)
  | "S"%char => format_0d 2 (second t)
  | "p"%char => if (hour t <? 12)%Z then "AM" else "PM"
  | "%"%char => "%"
  | _ => String "%" (String c EmptyString)
  end.

(** [t.strftime(fmt)] *)
Fixpoint strftime (fmt : string) (t : datetime) : string :=
  match fmt with
  | String "%" (String c rest) => strftime_directive c t ++ strftime rest t
  | String c rest => String c (strftime rest t)
  | EmptyString => EmptyString
  end.

(** [t.isoformat()] *)
Definition isoformat (t : datetime) : string :=
  format_0d 4 (year t) ++ "-" ++ format_0d 2 (month t) ++ "-" ++ format_0d 2 (day t)
    ++ "T" ++ format_0d 2 (hour t) ++ ":" ++ format_0d 2 (minute t) ++ ":"
    ++ format_0d 2 (second t)
    ++ (if (microsecond t =? 0)%Z then "" else "." ++ format_0d 6 (microsecond t)).

(** ** Text and the encoding of standard output *)

(** A Python text is held here as its bytes in UTF-8, a lone surrogate
    ([U+D800] to [U+DFFF], which JSON can carry as an escape) as the three
    bytes that pattern gives it: [ED], then [A0] to [BF], then a
    continuation byte.  Standard output is a UTF-8 stream with the strict
    error handler, as the interpreter sets it up: it encodes every text
    but one that holds a surrogate. *)
Definition is_lead_ED (c : ascii) : bool := (nat_of_ascii c =? 237)%nat.

Definition is_second_of_surrogate (c : ascii) : bool :=
  ((160 <=? nat_of_ascii c) && (nat_of_ascii c <=? 191))%nat.

(** A byte [10xxxxxx], which starts no character. *)
Definition is_continuation (c : ascii) : bool :=
  ((128 <=? nat_of_ascii c) && (nat_of_ascii c <=? 191))%nat.

(** The text starts with a surrogate. *)
Definition surrogate_here (s : string) : bool :=
  match s with
  | String a (String b _) => is_lead_ED a && is_second_of_surrogate b
  | _ => false
  end.

Fixpoint has_surrogate (s : string) : bool :=
  surrogate_here s ||
  match s with
  | String _ s' => has_surrogate s'
  | EmptyString => false
  end.

(** The stream can encode the text. *)
Definition encodable (s : string) : bool := negb (has_surrogate s).

(** The first surrogate of a text: its index, counted in characters from
    [pos], and the text from there on. *)
Fixpoint surrogate_position (s : string) (pos : nat) : option (nat * string) :=
  match s with
  | EmptyString => None
  | String a s' =>
      if surrogate_here s then Some (pos, s)
      else surrogate_position s' (if is_continuation a then pos else S pos)
  end.

(** How many surrogates follow one another at the start of the text. *)
Fixpoint surrogate_run (s : string) : nat :=
  match s with
  | String a (String b rest) =>
      if is_lead_ED a && is_second_of_surrogate b
      then S (match rest with
              | String _ rest' => surrogate_run rest'
              | EmptyString => 0
              end)
      else 0
  | _ => 0
  end.

(** The code point of the surrogate with second and third bytes [b], [c]. *)
Definition surrogate_code (b c : ascii) : N :=
  (0xD000 + (N_of_ascii b - 0x80) * 64 + (N_of_ascii c - 0x80))%N.

(** [str(e)] of the [UnicodeEncodeError] that encoding the text raises: it
    names the first run of surrogates, by its character when the run is of
    one and by its range of indices otherwise. *)
Definition unicode_encode_error (s : string) : string :=
  match surrogate_position s 0 with
  | Some (pos, String a (String b rest)) =>
      let c := match rest with String c _ => c | EmptyString => "128"%char end in
      let run := surrogate_run (String a (String b rest)) in
      if (run =? 1)%nat
      then "'utf-8' codec can't encode character '\u"
             ++ zfill 4 (format_x (surrogate_code b c))
             ++ "' in position " ++ format_d (Z.of_nat pos)
             ++ ": surrogates not allowed"
      else "'utf-8' codec can't encode characters in position "
             ++ format_d (Z.of_nat pos) ++ "-" ++ format_d (Z.of_nat (pos + run - 1))
             ++ ": surrogates not allowed"
  | _ => EmptyString
  end.

(** ** The completion service and the world of a handler *)

(** One entry of [messages]: [{"role": ..., "content": ...}]. *)
Record chat_message : Type := mk_message {
  role : string;
  content : string
}.

(** The keyword arguments of [client.chat.completions.create]. *)
Record completion_request : Type := mk_request {
  model : string;
  messages : list chat_message;
  temperature : float;
  max_tokens : Z
}.

(** What the service answers: [response.choices[i].message.content] is text
    or [None]. *)
Record choice : Type := mk_choice { message_content : option string }.
Record chat_completion : Type := mk_completion { choices : list choice }.

(** The client object built by [OpenAI(api_key=...)]. *)
Record OpenAI : Type := mk_OpenAI { client_api_key : string }.

(** The module-level bindings that the start-up code assigns. *)
Record Globals : Type := mk_globals {
  api_key : option string;
  client : option OpenAI
}.

(** Everything a handler can read or change.  [clock] is what
    [datetime.now()] returns and [entropy] what [os.urandom(16)] returns
    while the request is handled; [openai_new] and [completions_create] are
    the behaviour of the [openai] package, which may raise;
    [upstream_calls] records the calls made to the service and [stdout] the
    lines printed. *)
Record World : Type := mk_world {
  globals : Globals;
  environ : list (string * string);
  clock : datetime;
  entropy : list Byte.byte;
  openai_new : string -> result OpenAI;
  completions_create : OpenAI -> completion_request -> result chat_completion;
  upstream_calls : list completion_request;
  stdout : list string
}.

Definition with_globals (g : Globals) (w : World) : World :=
  mk_world g (environ w) (clock w) (entropy w) (openai_new w)
    (completions_create w) (upstream_calls w) (stdout w).

Definition with_upstream_calls (c : list completion_request) (w : World) : World :=
  mk_world (globals w) (environ w) (clock w) (entropy w) (openai_new w)
    (completions_create w) c (stdout w).

Definition with_stdout (o : list string) (w : World) : World :=
  mk_world (globals w) (environ w) (clock w) (entropy w) (openai_new w)
    (completions_create w) (upstream_calls w) o.

(** ** The monad of handlers: state and exceptions *)

(** A raised exception keeps the effects made before it. *)
Definition M (A : Type) : Type := World -> result A * World.

Definition ret {A : Type} (a : A) : M A := fun w => (Ok a, w).

Definition bind {A B : Type} (m : M A) (k : A -> M B) : M B :=
  fun w =>
    match m w with
    | (Ok a, w') => k a w'
    | (Raise e, w') => (Raise e, w')
    end.

Definition raise {A : Type} (e : exn) : M A := fun w => (Raise e, w).

Definition lift {A : Type} (r : result A) : M A := fun w => (r, w).

(** [try: m  except Exception as e: handler(e)] *)
Definition try_except {A : Type} (m : M A) (handler : exn -> M A) : M A :=
  fun w =>
    match m w with
    | (Ok a, w') => (Ok a, w')
    | (Raise e, w') => handler e w'
    end.

Declare Scope handler_scope.
Delimit Scope handler_scope with handler.
Notation "x <- m ;; k" := (bind m (fun x => k))
  (at level 61, m at next level, right associativity) : handler_scope.
Notation "m ;; k" := (bind m (fun _ => k))
  (at level 61, right associativity) : handler_scope.
#[local] Open Scope handler_scope.

(** [print(line)]: the line is written when the stream can encode it;
    otherwise nothing is written and [UnicodeEncodeError], a [ValueError],
    is raised. *)
Definition print (line : string) : M unit :=
  fun w =>
    if encodable line
    then (Ok tt, with_stdout (stdout w ++ [line]) w)
    else (Raise (ValueError (unicode_encode_error line)), w).

Definition os_environ_get (name : string) : M (option string) :=
  fun w => (Ok (environ_get (environ w) name), w).

Definition datetime_now : M datetime := fun w => (Ok (clock w), w).

Definition os_urandom16 : M (list Byte.byte) := fun w => (Ok (entropy w), w).

Definition uuid_uuid4 : M N :=
  b <- os_urandom16 ;; ret (Uuid.uuid4 b).

Definition read_client : M (option OpenAI) := fun w => (Ok (client (globals w)), w).

Definition assign_api_key (k : option string) : M unit :=
  fun w => (Ok tt, with_globals (mk_globals k (client (globals w))) w).

Definition assign_client (c : option OpenAI) : M unit :=
  fun w => (Ok tt, with_globals (mk_globals (api_key (globals w)) c) w).

(** [OpenAI(api_key=key)] *)
Definition OpenAI_new (key : string) : M OpenAI :=
  fun w => (openai_new w key, w).

(** [c.chat.completions.create(...)]: the call is made, and recorded,
    whether or not it raises. *)
Definition chat_completions_create (c : OpenAI) (req : completion_request)
  : M chat_completion :=
  fun w => (completions_create w c req, with_upstream_calls (upstream_calls w ++ [req]) w).

(** ** HTTP requests and responses *)

(** [request.json]: the decoded body, [None] included, or the exception that
    evaluating the attribute raises. *)
Record request : Type := mk_http_request { json : result pyval }.

Record response : Type := mk_response {
  status : Z;
  body : pyval
}.

(** [jsonify(v)] and [jsonify(v), code] *)
Definition jsonify (v : pyval) : response := mk_response 200 v.
Definition jsonify_status (v : pyval) (code : Z) : response := mk_response code v.

(** [bool(client)]: a client object is truthy, [None] is not. *)
Definition bool_client (c : option OpenAI) : bool :=
  match c with Some _ => true | None => false end.

(** ** The handlers of [main.py] *)

Section Handlers.

(** [repr(v)] of the interpreter, used on the values that are not text;
    [test_page_html] is the text of the raw string literal that
    [test_page] returns (the bundled HTML page). *)
Variable py_repr : pyval -> string.
Variable test_page_html : string.

(** [format(v, "")], what an f-string does to [{v}]: text is inserted as it
    is; for the other values decoded from JSON, [str] is [repr]. *)
Definition py_format (v : pyval) : string :=
  match v with
  | PStr s => s
  | _ => py_repr v
  end.

(** The module-level [try] block: resolve the credential from the first of
    three environment variables that is set, and build the client; on any
    exception the handle is [None]. *)
Definition init_client : M unit :=
  try_except
    (k1 <- os_environ_get "OPENAI_KEY" ;;
     k2 <- os_environ_get "OPENAI_API_KEY" ;;
     k3 <- os_environ_get "OPENAI_TOKEN" ;;
     let key := py_or (py_or k1 k2) k3 in
     assign_api_key key ;;
     match key with
     | Some (String a k) =>
         c <- OpenAI_new (String a k) ;;
         assign_client (Some c) ;;
         print "✅ OpenAI client initialized successfully"
     | _ => raise (ValueError "OpenAI API key not found in environment variables")
     end)
    (fun e =>
       print ("❌ Failed to initialize OpenAI client: " ++ exn_str e) ;;
       assign_client None).

Definition system_message : string :=
  "You are a top-tier game dev consultant and royal vizier who delivers precise, actionable insights with perfect spelling and grammar.".

(** The f-string of [analyze_game] around [{business_data}]. *)
Definition prompt_before : string :=
  nl ++ "    You are an expert video game designer and royal vizier. Using the game summary given, share one strong point about it, three ways it could be improved, and three ways the game idea could be made more marketable and have more mass appeal. Be sure to give specific, actionable recommendations and examples especially for how it could be more marketable. Sign off with "
     ++ dq ++ "Your humble vizier" ++ dq ++ "." ++ nl
     ++ nl
     ++ "    Game Summary:" ++ nl
     ++ "    ".

Definition prompt_after : string :=
  nl ++ nl
     ++ "    IMPORTANT: Use professional consulting language with perfect spelling and grammar and a royal vizier style as if talking to a king or queen. Format your response with clear sections using markdown headers." ++ nl
     ++ "    ".

Definition analyze_game (business_data : pyval) : M pyval :=
  c <- read_client ;;
  match c with
  | None =>
      ret (PStr "OpenAI client is not initialized. Please check your API key and environment variables.")
  | Some cl =>
      let prompt := prompt_before ++ py_format business_data ++ prompt_after in
      response <- chat_completions_create cl
                    (mk_request "gpt-4"
                       [mk_message "system" system_message;
                        mk_message "user" prompt]
                       0.85%float
                       2000) ;;
      first <- lift (list_first (choices response)) ;;
      ret (match message_content first with
           | Some text => PStr text
           | None => PNone
           end)
  end.

Definition required_fields : list string := ["business_name"; "game_data"].

(** The validation loop: [field not in data or data[field] is None]. *)
Fixpoint check_required (data : pyval) (fields : list string) : result unit :=
  match fields with
  | [] => Ok tt
  | field :: rest =>
      match py_contains data field with
      | Raise e => Raise e
      | Ok false => Raise (ValueError ("Missing required field: " ++ field))
      | Ok true =>
          match py_getitem data field with
          | Raise e => Raise e
          | Ok v =>
              if is_None v
              then Raise (ValueError ("Missing required field: " ++ field))
              else check_required data rest
          end
      end
  end.

Definition process_game_analysis (data : pyval) : M pyval :=
  lift (check_required data required_fields) ;;
  business_name <- lift (py_getitem data "business_name") ;;
  game_data <- lift (py_getitem data "game_data") ;;
  print ("Generating analysis for " ++ py_format business_name ++ "...") ;;
  analysis <- analyze_game game_data ;;
  u <- uuid_uuid4 ;;
  let report_id := substring 0 8 (Uuid.str u) in
  now <- datetime_now ;;
  ret (PDict [("success", PBool true);
              ("message", PStr "Game analysis completed successfully!");
              ("report_id", PStr report_id);
              ("business_name", business_name);
              ("analysis", analysis);
              ("generated_at", PStr (strftime "%B %d, %Y at %I:%M %p" now))]).

(** [GET /] *)
Definition home : M response :=
  k1 <- os_environ_get "OPENAI_KEY" ;;
  k2 <- os_environ_get "OPENAI_API_KEY" ;;
  let openai_key := py_or k1 k2 in
  c <- read_client ;;
  ret (jsonify
         (PDict [("message", PStr "Game Dev Vizier API is running!");
                 ("status", PStr "healthy");
                 ("endpoints",
                  PDict [("health", PStr "/api/health");
                         ("analyze", PStr "/api/analyze-game (POST)");
                         ("test", PStr "/api/test (POST)")]);
                 ("environment_check",
                  PDict [("openai_key_set", PBool (truthy openai_key));
                         ("client_ready", PBool (bool_client c))])])).

(** The two [except] clauses shared by the POST handlers; [place] is the
    text of the log line. *)
Definition on_error (place : string) (e : exn) : M response :=
  if is_ValueError e
  then ret (jsonify_status (PDict [("error", PStr (exn_str e))]) 400)
  else
    print ("❌ Error in " ++ place ++ ": " ++ exn_str e) ;;
    ret (jsonify_status (PDict [("error", PStr (exn_str e))]) 500).

(** [POST /api/analyze-game] *)
Definition api_analyze_game (req : request) : M response :=
  try_except
    (data <- lift (json req) ;;
     if is_None data
     then ret (jsonify_status (PDict [("error", PStr "No JSON data provided")]) 400)
     else
       response_data <- process_game_analysis data ;;
       ret (jsonify response_data))
    (on_error "API").

(** [GET /api/health] *)
Definition health_check : M response :=
  now <- datetime_now ;;
  c <- read_client ;;
  ret (jsonify
         (PDict [("status", PStr "healthy");
                 ("timestamp", PStr (isoformat now));
                 ("service", PStr "Game Dev Vizier");
                 ("environment",
                  PDict [("openai_configured", PBool (bool_client c))])])).

Definition sample_data : pyval :=
  PDict [("business_name", PStr "Sample Game Idea");
         ("game_data",
          PStr (nl ++ "        A visual novel about a detective who solves mysteries about a team of thieves using his unique psychic abilities. The game features a rich storyline, engaging puzzles, and a cast of memorable characters. The game is set in a Victorian-era city and explores themes of mystery, suspense, and the psychic powers that must be used and defeated. The game is designed to be played on PC and mobile devices." ++ nl
                   ++ "        "))].

(** [POST /api/test] *)
Definition test_endpoint : M response :=
  try_except
    (print "🧪 Running test with sample data..." ;;
     response_data <- process_game_analysis sample_data ;;
     ret (jsonify response_data))
    (on_error "test endpoint").

(** [GET /test] *)
Definition test_page : M string := ret test_page_html.

End Handlers.

(** ** The [__main__] block *)

(** The keyword arguments of [app.run]. *)
Record run_args : Type := mk_run_args {
  run_debug : bool;
  run_host : string;
  run_port : Z
}.

(** [str(n)] of an integer *)
Definition format_int (n : Z) : string :=
  if (n <? 0)%Z then "-" ++ format_d (- n) else format_d n.

Section Main.

(** [int(s)] of the interpreter on a text; it raises [ValueError] on what
    is no integer literal. *)
Variable py_int : string -> result Z.

(** The block run when the module is the program: three lines of banner,
    the port from [PORT] (5000 when the variable is absent), the line that
    tells the mode, and the arguments handed to [app.run].  The serving loop
    of [app.run] itself is Flask's and is not part of the model. *)
Definition main : M run_args :=
  print "🚀 Starting Game Dev Vizier API..." ;;
  print "📧 Environment Variables Check:" ;;
  k1 <- os_environ_get "OPENAI_KEY" ;;
  k2 <- os_environ_get "OPENAI_API_KEY" ;;
  print ("   OPENAI_KEY: " ++ (if truthy (py_or k1 k2) then "✅ Set" else "❌ Missing")) ;;
  p <- os_environ_get "PORT" ;;
  port <- lift (match p with
                | Some s => py_int s
                | None => Ok 5000%Z
                end) ;;
  r <- os_environ_get "RAILWAY_ENVIRONMENT" ;;
  p' <- os_environ_get "PORT" ;;
  (if truthy (py_or r p')
   then
     print ("🌐 Production mode detected, running on port " ++ format_int port) ;;
     print "💡 Note: In production, use 'gunicorn --bind 0.0.0.0:$PORT main:app' instead"
   else
     print ("🛠️ Development mode, running on port " ++ format_int port)) ;;
  ret (mk_run_args false "0.0.0.0" port).

End Main.

(** ** Reading a timestamp back *)

(** The reader for the pattern that the specification gives for
    [generated_at], ["<Month name> DD, YYYY at HH:MM AM/PM"]: a full month
    name, a two-digit day, a four-digit year, a two-digit hour of the
    12-hour clock, a two-digit minute and [AM] or [PM], with exactly the
    punctuation of the pattern.  It accepts a text only when the fields form
    a calendar date and a time of day. *)
Module Reader.

Definition digit_of_ascii (c : ascii) : option Z :=
  let n := nat_of_ascii c in
  if (48 <=? n)%nat && (n <=? 57)%nat then Some (Z.of_nat (n - 48)) else None.

(** [strip p s] is what follows [p] in [s], when [s] starts with [p]. *)
Fixpoint strip (p s : string) : option string :=
  match p, s with
  | EmptyString, _ => Some s
  | String a p', String b s' => if Ascii.eqb a b then strip p' s' else None
  | String _ _, EmptyString => None
  end.

Fixpoint digits (n : nat) (acc : Z) (s : string) : option (Z * string) :=
  match n with
  | O => Some (acc, s)
  | S n' =>
      match s with
      | String c s' =>
          match digit_of_ascii c with
          | Some d => digits n' (10 * acc + d)%Z s'
          | None => None
          end
      | EmptyString => None
      end
  end.

Fixpoint month_of (candidates : list Z) (s : string) : option (Z * string) :=
  match candidates with
  | [] => None
  | m :: rest =>
      match strip (month_name m) s with
      | Some s' => Some (m, s')
      | None => month_of rest s
      end
  end.

Definition months : list Z := [1; 2; 3; 4; 5; 6; 7; 8; 9; 10; 11; 12]%Z.

Definition am_pm (s : string) : option (bool * string) :=
  match strip "AM" s with
  | Some s' => Some (false, s')
  | None =>
      match strip "PM" s with
      | Some s' => Some (true, s')
      | None => None
      end
  end.

Definition and_then {A B : Type} (o : option A) (k : A -> option B) : option B :=
  match o with Some a => k a | None => None end.

Definition parse_generated_at (s : string) : option datetime :=
  and_then (month_of months s) (fun '(mo, s) =>
  and_then (strip " " s) (fun s =>
  and_then (digits 2 0 s) (fun '(d, s) =>
  and_then (strip ", " s) (fun s =>
  and_then (digits 4 0 s) (fun '(y, s) =>
  and_then (strip " at " s) (fun s =>
  and_then (digits 2 0 s) (fun '(h, s) =>
  and_then (strip ":" s) (fun s =>
  and_then (digits 2 0 s) (fun '(mi, s) =>
  and_then (strip " " s) (fun s =>
  and_then (am_pm s) (fun '(pm, s) =>
    match s with
    | EmptyString =>
        let t := mk_datetime y mo d (h mod 12 + (if pm then 12 else 0)) mi 0 0 in
        if (1 <=? h)%Z && (h <=? 12)%Z && valid_datetime t then Some t else None
    | String _ _ => None
    end))))))))))).

End Reader.

(** [t] with its seconds and microseconds dropped, which is all that the
    pattern of [generated_at] shows. *)
Definition to_the_minute (t : datetime) : datetime :=
  mk_datetime (year t) (month t) (day t) (hour t) (minute t) 0 0.

(** The stand-in for [repr] in the closed examples below; no example applies
    it to a value. *)
Definition no_repr (v : pyval) : string := type_name v.

(** A world for the examples: no credential, so no client. *)
Definition world0 : World :=
  mk_world (mk_globals None None) []
    (mk_datetime 2024 3 5 14 7 9 120) (repeat Byte.x5a 16)
    (fun key => Ok (mk_OpenAI key))
    (fun _ _ => Ok (mk_completion [mk_choice (Some "Your Majesty, ...")]))
    [] [].

(** The same process after a start-up that found a credential. *)
Definition world1 : World :=
  with_globals (mk_globals (Some "sk-test") (Some (mk_OpenAI "sk-test"))) world0.

(** A process started with only [OPENAI_TOKEN] in its environment, before
    the start-up code has run. *)
Definition world_token : World :=
  mk_world (mk_globals None None) [("OPENAI_TOKEN", "sk-token")]
    (clock world0) (entropy world0) (openai_new world0) (completions_create world0)
    [] [].

(** A world whose completion service refuses every call. *)
Definition world_down : World :=
  mk_world (globals world1) [] (clock world0) (entropy world0) (openai_new world0)
    (fun _ _ => Raise (OtherError "Connection error."))
    [] [].

(** Request bodies for the examples. *)
Definition body0 : dict :=
  [("business_name", PStr "Space Tactics");
   ("game_data", PStr "A turn-based tactics game set on a derelict space station.")].

Definition body_no_game_data : dict := [("business_name", PStr "X")].

Definition body_empty_text : dict :=
  [("business_name", PStr ""); ("game_data", PStr "")].

(** ** Vocabulary of the properties *)

(** A required key is missing from a body when it is absent or bound to
    [None]. *)
Definition missing (d : dict) (k : string) : bool :=
  match dict_get d k with
  | None | Some PNone => true
  | Some _ => false
  end.

(** [v[k]] when [v] is a dict that has the key. *)
Definition py_field (v : pyval) (k : string) : option pyval :=
  match v with
  | PDict d => dict_get d k
  | _ => None
  end.

(** [v[k1][k2]] *)
Definition py_field2 (v : pyval) (k1 k2 : string) : option pyval :=
  match py_field v k1 with
  | Some v' => py_field v' k2
  | None => None
  end.

(** The text that stands for the analysis when there is no client. *)
Definition not_initialized : string :=
  "OpenAI client is not initialized. Please check your API key and environment variables.".

(** The line that [process_game_analysis] prints before the analysis. *)
Definition log_line (py_repr : pyval -> string) (business_name : pyval) : string :=
  "Generating analysis for " ++ py_format py_repr business_name ++ "...".

(** The dict that [process_game_analysis] builds, from the name it read, the
    analysis it got and the world it is in at that point. *)
Definition analysis_response (business_name analysis : pyval) (w : World) : pyval :=
  PDict [("success", PBool true);
         ("message", PStr "Game analysis completed successfully!");
         ("report_id", PStr (substring 0 8 (Uuid.str (Uuid.uuid4 (entropy w)))));
         ("business_name", business_name);
         ("analysis", analysis);
         ("generated_at", PStr (strftime "%B %d, %Y at %I:%M %p" (clock w)))].

(** The request that [analyze_game] sends for a description. *)
Definition completion_request_for (user_text : string) : completion_request :=
  mk_request "gpt-4"
    [mk_message "system" system_message; mk_message "user" user_text]
    0.85%float 2000.

(** [n], printed on [width] digits, is read back as [n] with nothing left. *)
Definition reads_back (width : nat) (n : Z) : bool :=
  match Reader.digits width 0 (format_0d width n) with
  | Some (v, EmptyString) => (v =? n)%Z
  | _ => false
  end.

(** A computation leaves the module-level bindings and the environment as
    they were. *)
Definition read_only {A : Type} (m : M A) : Prop :=
  forall w, globals (snd (m w)) = globals w /\ environ (snd (m w)) = environ w.

(** ** Reading an ISO timestamp back *)

(** The reader for [YYYY-MM-DDTHH:MM:SS], with [.ffffff] after it or not:
    the text that [isoformat] writes for a [datetime] without time zone. *)
Definition parse_isoformat (s : string) : option datetime :=
  Reader.and_then (Reader.digits 4 0 s) (fun '(y, s) =>
  Reader.and_then (Reader.strip "-" s) (fun s =>
  Reader.and_then (Reader.digits 2 0 s) (fun '(mo, s) =>
  Reader.and_then (Reader.strip "-" s) (fun s =>
  Reader.and_then (Reader.digits 2 0 s) (fun '(d, s) =>
  Reader.and_then (Reader.strip "T" s) (fun s =>
  Reader.and_then (Reader.digits 2 0 s) (fun '(h, s) =>
  Reader.and_then (Reader.strip ":" s) (fun s =>
  Reader.and_then (Reader.digits 2 0 s) (fun '(mi, s) =>
  Reader.and_then (Reader.strip ":" s) (fun s =>
  Reader.and_then (Reader.digits 2 0 s) (fun '(sec, s) =>
  Reader.and_then
    (match s with
     | EmptyString => Some (0%Z, EmptyString)
     | String _ _ =>
         Reader.and_then (Reader.strip "." s) (fun s => Reader.digits 6 0 s)
     end) (fun '(us, s) =>
    match s with
    | EmptyString =>
        let t := mk_datetime y mo d h mi sec us in
        if valid_datetime t then Some t else None
    | String _ _ => None
    end)))))))))))).

(** ** More vocabulary *)

(** [c] is one of [0-9a-f]. *)
Definition is_hex_digit (c : ascii) : bool :=
  let n := nat_of_ascii c in
  ((48 <=? n)%nat && (n <=? 57)%nat) || ((97 <=? n)%nat && (n <=? 102)%nat).

Fixpoint string_forallb (p : ascii -> bool) (s : string) : bool :=
  match s with
  | EmptyString => true
  | String c s' => p c && string_forallb p s'
  end.

(** [list(v.keys())] of a dict, in order. *)
Definition dict_keys (v : pyval) : list string :=
  match v with
  | PDict d => map fst d
  | _ => []
  end.

(** The keys of a response to an analysis, and of an error. *)
Definition analysis_keys : list string :=
  ["success"; "message"; "report_id"; "business_name"; "analysis"; "generated_at"].

Definition error_keys : list string := ["error"].

(** The key the start-up code resolves: the first of the three variables
    that is set to a non-empty text. *)
Definition resolved_key (env : list (string * string)) : option string :=
  py_or (py_or (environ_get env "OPENAI_KEY") (environ_get env "OPENAI_API_KEY"))
    (environ_get env "OPENAI_TOKEN").


(** The number that a sequence of decimal digits denotes, read from the
    left after the number [acc]. *)
Fixpoint fold_digits (d : Decimal.uint) (acc : Z) : Z :=
  match d with
  | Decimal.Nil => acc
  | Decimal.D0 l => fold_digits l (10 * acc + 0)
  | Decimal.D1 l => fold_digits l (10 * acc + 1)
  | Decimal.D2 l => fold_digits l (10 * acc + 2)
  | Decimal.D3 l => fold_digits l (10 * acc + 3)
  | Decimal.D4 l => fold_digits l (10 * acc + 4)
  | Decimal.D5 l => fold_digits l (10 * acc + 5)
  | Decimal.D6 l => fold_digits l (10 * acc + 6)
  | Decimal.D7 l => fold_digits l (10 * acc + 7)
  | Decimal.D8 l => fold_digits l (10 * acc + 8)
  | Decimal.D9 l => fold_digits l (10 * acc + 9)
  end%Z.

(** [isinstance(v, dict)] *)
Definition is_dict (v : pyval) : bool :=
  match v with PDict _ => true | _ => false end.

(** The status and the body with which the two [except] clauses answer. *)
Definition error_response (e : exn) : response :=
  mk_response (if is_ValueError e then 400 else 500)%Z
    (PDict [("error", PStr (exn_str e))]).

(** More worlds for the examples: a process started with an empty
    [OPENAI_KEY] and an [OPENAI_API_KEY]; one whose service answers without
    any choice; one whose service answers with a choice that has no text. *)
Definition world_api_key : World :=
  mk_world (mk_globals None None)
    [("OPENAI_KEY", ""); ("OPENAI_API_KEY", "sk-api"); ("OPENAI_TOKEN", "sk-token")]
    (clock world0) (entropy world0) (openai_new world0) (completions_create world0)
    [] [].

Definition world_no_choice : World :=
  mk_world (globals world1) [] (clock world0) (entropy world0) (openai_new world0)
    (fun _ _ => Ok (mk_completion []))
    [] [].

Definition world_no_text : World :=
  mk_world (globals world1) [] (clock world0) (entropy world0) (openai_new world0)
    (fun _ _ => Ok (mk_completion [mk_choice None; mk_choice (Some "second")]))
    [] [].

(** Processes started with [PORT] set, and with the platform's marker only. *)
Definition world_port : World :=
  mk_world (mk_globals None None) [("PORT", "8080")]
    (clock world0) (entropy world0) (openai_new world0) (completions_create world0)
    [] [].

Definition world_railway : World :=
  mk_world (mk_globals None None) [("RAILWAY_ENVIRONMENT", "production")]
    (clock world0) (entropy world0) (openai_new world0) (completions_create world0)
    [] [].

(** A stand-in for [int] in the examples: it knows the one text they use. *)
Definition int_8080 (s : string) : result Z :=
  if String.eqb s "8080" then Ok 8080%Z
  else Raise (ValueError ("invalid literal for int() with base 10: " ++ sq ++ s ++ sq)).

(** The line that the second [except] clause of a POST handler prints, and
    the line that the start-up code prints when it has no client. *)
Definition error_line (place : string) (e : exn) : string :=
  "❌ Error in " ++ place ++ ": " ++ exn_str e.

Definition init_error_line (e : exn) : string :=
  "❌ Failed to initialize OpenAI client: " ++ exn_str e.

(** The [except] clauses of a POST handler get to their [return] for the
    exception: a [ValueError] is answered at once, any other is printed
    first, which takes a text that the stream can encode. *)
Definition loggable (e : exn) : bool :=
  is_ValueError e || encodable (exn_str e).

(** The text made of the lone surrogate [U+D800], and a body that passes
    validation with it as the name. *)
Definition surrogate_text : string :=
  String "237" (String "160" (String "128" EmptyString)).

Definition body_surrogate : dict :=
  [("business_name", PStr surrogate_text); ("game_data", PStr "x")].

(** The world that [process_game_analysis] leaves behind it in [world1] for
    [body0], and the response it returns there. *)
Definition world1_after : World :=
  with_upstream_calls
    [completion_request_for
       (prompt_before ++ "A turn-based tactics game set on a derelict space station."
          ++ prompt_after)]
    (with_stdout ["Generating analysis for Space Tactics..."] world1).

Definition response1 : pyval :=
  analysis_response (PStr "Space Tactics") (PStr "Your Majesty, ...") world1_after.

(** A process whose clock reads a day of the year 999. *)
Definition world_999 : World :=
  mk_world (mk_globals None None) []
    (mk_datetime 999 1 1 0 0 0 0) (entropy world0) (openai_new world0)
    (completions_create world0) [] [].

(** Requests whose [request.json] raises, as Werkzeug does for a request
    that has no JSON content type and for a body that is no JSON. *)
Definition request_no_body : request :=
  mk_http_request
    (Raise (OtherError
              ("415 Unsupported Media Type: Did not attempt to load JSON data because the request Content-Type was not "
                 ++ sq ++ "application/json" ++ sq ++ ".")%string)).

Definition request_bad_json : request :=
  mk_http_request
    (Raise (OtherError
              "400 Bad Request: The browser (or proxy) sent a request that this server could not understand.")).

(** A process with a credential whose client cannot be built. *)
Definition world_bad_ctor : World :=
  mk_world (mk_globals None None) [("OPENAI_KEY", "sk-key")]
    (clock world0) (entropy world0)
    (fun _ => Raise (TypeError
                       ("Client.__init__() got an unexpected keyword argument "
                          ++ sq ++ "proxies" ++ sq)%string))
    (completions_create world0) [] [].

(** The request that [analyze_game] sends for a description. *)
Definition request_for (py_repr : pyval -> string) (gd : pyval) : completion_request :=
  completion_request_for (prompt_before ++ py_format py_repr gd ++ prompt_after).

(** The three lines that the [__main__] block prints first. *)
Definition banner (w : World) : list string :=
  ["🚀 Starting Game Dev Vizier API...";
   "📧 Environment Variables Check:";
   ("   OPENAI_KEY: "
      ++ (if truthy (py_or (environ_get (environ w) "OPENAI_KEY")
                       (environ_get (environ w) "OPENAI_API_KEY"))
          then "✅ Set" else "❌ Missing"))%string].

(** A process started with a [PORT] that is no number. *)
Definition world_bad_port : World :=
  mk_world (mk_globals None None) [("PORT", "eighty")]
    (clock world0) (entropy world0) (openai_new world0) (completions_create world0)
    [] [].

(* ================================================================= *)
(** * Properties *)

Example ex_strftime :
  strftime "%B %d, %Y at %I:%M %p" (mk_datetime 2024 3 5 0 7 9 0)
  = "March 05, 2024 at 12:07 AM".
Proof. reflexivity. Qed.

Example ex_parse :
  Reader.parse_generated_at "March 05, 2024 at 12:07 AM"
  = Some (mk_datetime 2024 3 5 0 7 0 0).
Proof. reflexivity. Qed.

Example ex_parse_bad_day :
  Reader.parse_generated_at "February 30, 2024 at 12:07 AM" = None.
Proof. reflexivity. Qed.

Example ex_uuid_ones :
  Uuid.str (Uuid.uuid4 (repeat Byte.xff 16)) = "ffffffff-ffff-4fff-bfff-ffffffffffff".
Proof. vm_compute. reflexivity. Qed.

Example ex_uuid_zeros :
  Uuid.str (Uuid.uuid4 (repeat Byte.x00 16)) = "00000000-0000-4000-8000-000000000000".
Proof. vm_compute. reflexivity. Qed.

Example ex_isoformat :
  isoformat (clock world0) = "2024-03-05T14:07:09.000120".
Proof. reflexivity. Qed.

(** ** The monad: what each primitive leaves unchanged *)

Create HintDb frame.

Lemma read_only_ret {A : Type} (a : A) : read_only (ret a).
Proof. intro w; split; reflexivity. Qed.

Lemma read_only_raise {A : Type} (e : exn) : read_only (@raise A e).
Proof. intro w; split; reflexivity. Qed.

Lemma read_only_lift {A : Type} (r : result A) : read_only (lift r).
Proof. intro w; split; reflexivity. Qed.

Lemma read_only_bind {A B : Type} (m : M A) (k : A -> M B) :
  read_only m -> (forall a, read_only (k a)) -> read_only (bind m k).
Proof.
  intros Hm Hk w. unfold bind.
  destruct (Hm w) as [Hg He].
  destruct (m w) as [[a | e] w1]; simpl in *.
  - destruct (Hk a w1) as [Hg1 He1]. split; congruence.
  - split; assumption.
Qed.

Lemma read_only_try_except {A : Type} (m : M A) (h : exn -> M A) :
  read_only m -> (forall e, read_only (h e)) -> read_only (try_except m h).
Proof.
  intros Hm Hh w. unfold try_except.
  destruct (Hm w) as [Hg He].
  destruct (m w) as [[a | e] w1]; simpl in *.
  - split; assumption.
  - destruct (Hh e w1) as [Hg1 He1]. split; congruence.
Qed.

Lemma read_only_print (line : string) : read_only (print line).
Proof. intro w. unfold print. destruct (encodable line); split; reflexivity. Qed.

Lemma read_only_os_environ_get (name : string) : read_only (os_environ_get name).
Proof. intro w; split; reflexivity. Qed.

Lemma read_only_datetime_now : read_only datetime_now.
Proof. intro w; split; reflexivity. Qed.

Lemma read_only_uuid_uuid4 : read_only uuid_uuid4.
Proof. intro w; split; reflexivity. Qed.

Lemma read_only_read_client : read_only read_client.
Proof. intro w; split; reflexivity. Qed.

Lemma read_only_chat_completions_create (c : OpenAI) (req : completion_request) :
  read_only (chat_completions_create c req).
Proof. intro w; split; reflexivity. Qed.

#[local] Hint Resolve read_only_ret read_only_raise read_only_lift
  read_only_print read_only_os_environ_get read_only_datetime_now
  read_only_uuid_uuid4 read_only_read_client
  read_only_chat_completions_create : frame.

(** Goes through a handler one bind at a time. *)
Ltac frame_step :=
  first
    [ solve [ auto with frame ]
    | apply read_only_bind; [ | intro ]
    | apply read_only_try_except; [ | intro ] ].

Ltac frame := repeat frame_step.

Section Frame.

Variable py_repr : pyval -> string.
Variable test_page_html : string.

Lemma read_only_analyze_game (v : pyval) : read_only (analyze_game py_repr v).
Proof.
  unfold analyze_game. frame.
  match goal with c : option OpenAI |- _ => destruct c end; frame.
Qed.
#[local] Hint Resolve read_only_analyze_game : frame.

Lemma read_only_process_game_analysis (data : pyval) :
  read_only (process_game_analysis py_repr data).
Proof.
  unfold process_game_analysis. frame.
Qed.
#[local] Hint Resolve read_only_process_game_analysis : frame.

Lemma read_only_on_error (place : string) (e : exn) : read_only (on_error place e).
Proof. unfold on_error. destruct (is_ValueError e); frame. Qed.
#[local] Hint Resolve read_only_on_error : frame.

Lemma read_only_api_analyze_game (req : request) :
  read_only (api_analyze_game py_repr req).
Proof.
  unfold api_analyze_game. frame.
  match goal with |- context [is_None ?d] => destruct (is_None d) end; frame.
Qed.

Lemma read_only_test_endpoint : read_only (test_endpoint py_repr).
Proof.
  unfold test_endpoint. frame.
Qed.

Lemma read_only_home : read_only home.
Proof. unfold home. frame. Qed.

Lemma read_only_health_check : read_only health_check.
Proof. unfold health_check. frame. Qed.

Lemma read_only_test_page : read_only (test_page test_page_html).
Proof. unfold test_page. frame. Qed.

End Frame.

(** ** Validation *)

(** On a dict the loop reports the first required key that is missing. *)
Lemma check_required_dict (d : dict) :
  check_required (PDict d) required_fields =
    if missing d "business_name"
    then Raise (ValueError "Missing required field: business_name")
    else if missing d "game_data"
         then Raise (ValueError "Missing required field: game_data")
         else Ok tt.
Proof.
  unfold required_fields, check_required, py_contains, py_getitem, dict_has, missing.
  destruct (dict_get d "business_name") as [[] | ];
    destruct (dict_get d "game_data") as [[] | ]; reflexivity.
Qed.

(** Only a dict that binds both keys to something else than [None] passes. *)
Lemma check_required_ok (data : pyval) :
  check_required data required_fields = Ok tt ->
  exists d bn gd,
    data = PDict d
    /\ dict_get d "business_name" = Some bn /\ is_None bn = false
    /\ dict_get d "game_data" = Some gd /\ is_None gd = false.
Proof.
  destruct data as [ | b | z | f | s | l | d ]; try discriminate.
  - (* text: the substring test may pass, the subscript raises *)
    unfold required_fields, check_required, py_contains, py_getitem.
    destruct (str_contains "business_name" s); discriminate.
  - (* list: the membership test may pass, the subscript raises *)
    unfold required_fields, check_required, py_contains, py_getitem.
    destruct (existsb (eq_str "business_name") l); discriminate.
  - rewrite check_required_dict. unfold missing.
    destruct (dict_get d "business_name") as [bn | ] eqn:Hbn; [ | discriminate ].
    destruct (dict_get d "game_data") as [gd | ] eqn:Hgd;
      [ | destruct bn; discriminate ].
    intros H. exists d, bn, gd.
    destruct bn; try discriminate; destruct gd; try discriminate;
      repeat split; first [ assumption | reflexivity ].
Qed.

Lemma missing_false (d : dict) (k : string) (v : pyval) :
  dict_get d k = Some v -> is_None v = false -> missing d k = false.
Proof.
  unfold missing. intros -> H. destruct v; [discriminate | reflexivity ..].
Qed.

Section Pipeline.

Variable py_repr : pyval -> string.

(** What [analyze_game] does in each of its two modes. *)
Lemma analyze_game_no_client (v : pyval) (w : World) :
  client (globals w) = None ->
  analyze_game py_repr v w = (Ok (PStr not_initialized), w).
Proof.
  intros H. unfold analyze_game, bind, read_client. rewrite H. reflexivity.
Qed.

Lemma analyze_game_calls (v : pyval) (c : OpenAI) (w : World) :
  client (globals w) = Some c ->
  upstream_calls (snd (analyze_game py_repr v w)) =
    (upstream_calls w
       ++ [completion_request_for (prompt_before ++ py_format py_repr v ++ prompt_after)])%list.
Proof.
  intros H. unfold analyze_game, bind, read_client, chat_completions_create, lift, ret.
  rewrite H. cbv zeta.
  destruct (completions_create w c _) as [resp | e]; [ | reflexivity ].
  destruct (list_first (choices resp)); reflexivity.
Qed.

Lemma analyze_game_raises (v : pyval) (w w' : World) (e : exn) :
  analyze_game py_repr v w = (Raise e, w') ->
  client (globals w) <> None /\ upstream_calls w' <> upstream_calls w.
Proof.
  intros H. destruct (client (globals w)) as [c | ] eqn:Hc.
  - split; [discriminate | ].
    pose proof (analyze_game_calls v c w Hc) as Hcalls.
    rewrite H in Hcalls. simpl in Hcalls. rewrite Hcalls.
    intros Heq. apply (f_equal (@List.length _)) in Heq.
    rewrite length_app in Heq. simpl in Heq. lia.
  - rewrite (analyze_game_no_client v w Hc) in H. discriminate.
Qed.

(** The clock, the random source and the bindings are the same before and
    after the analysis. *)
Lemma analyze_game_frame (v : pyval) (w : World) :
  let w' := snd (analyze_game py_repr v w) in
  clock w' = clock w /\ entropy w' = entropy w /\ stdout w' = stdout w.
Proof.
  unfold analyze_game, bind, read_client, chat_completions_create, lift, ret.
  destruct (client (globals w)) as [c | ]; cbv zeta; [ | repeat split ].
  destruct (completions_create w c _) as [resp | e]; [ | repeat split ].
  destruct (list_first (choices resp)); repeat split.
Qed.

(** Past validation, [process_game_analysis] prints its line, runs the
    analysis and wraps what it got; a line that cannot be printed ends it
    before the analysis. *)
Lemma process_game_analysis_valid (d : dict) (bn gd : pyval) (w : World) :
  dict_get d "business_name" = Some bn -> is_None bn = false ->
  dict_get d "game_data" = Some gd -> is_None gd = false ->
  process_game_analysis py_repr (PDict d) w =
    if encodable (log_line py_repr bn)
    then
      match analyze_game py_repr gd
              (with_stdout (stdout w ++ [log_line py_repr bn])%list w) with
      | (Ok a, w') => (Ok (analysis_response bn a w'), w')
      | (Raise e, w') => (Raise e, w')
      end
    else (Raise (ValueError (unicode_encode_error (log_line py_repr bn))), w).
Proof.
  intros Hbn Nbn Hgd Ngd.
  unfold process_game_analysis.
  unfold bind at 1. unfold lift at 1.
  rewrite check_required_dict.
  rewrite (missing_false d _ bn Hbn Nbn), (missing_false d _ gd Hgd Ngd).
  unfold bind at 1. unfold lift at 1. unfold py_getitem at 1. rewrite Hbn.
  unfold bind at 1. unfold lift at 1. unfold py_getitem at 1. rewrite Hgd.
  unfold bind at 1. unfold print at 1. fold (log_line py_repr bn).
  destruct (encodable (log_line py_repr bn)); [ | reflexivity ].
  unfold bind at 1.
  destruct (analyze_game py_repr gd _) as [[a | e] w']; reflexivity.
Qed.

Lemma process_game_analysis_invalid (data : pyval) (e : exn) (w : World) :
  check_required data required_fields = Raise e ->
  process_game_analysis py_repr data w = (Raise e, w).
Proof.
  intros H. unfold process_game_analysis, bind, lift. rewrite H. reflexivity.
Qed.

(** A response that [process_game_analysis] returns is the dict built around
    the name read from the request and the analysis, in a world whose clock
    and random source are those of the start. *)
Lemma process_game_analysis_returned (data r : pyval) (w w' : World) :
  process_game_analysis py_repr data w = (Ok r, w') ->
  exists bn a,
    py_field data "business_name" = Some bn
    /\ r = analysis_response bn a w'
    /\ clock w' = clock w /\ entropy w' = entropy w.
Proof.
  intros H.
  destruct (check_required data required_fields) as [[] | e] eqn:Hc.
  - destruct (check_required_ok data Hc) as (d & bn & gd & -> & Hbn & Nbn & Hgd & Ngd).
    rewrite (process_game_analysis_valid d bn gd w Hbn Nbn Hgd Ngd) in H.
    destruct (encodable (log_line py_repr bn)); [ | discriminate ].
    set (w1 := with_stdout (stdout w ++ [log_line py_repr bn])%list w) in H.
    pose proof (analyze_game_frame gd w1) as Hf.
    destruct (analyze_game py_repr gd w1) as [[a | e] w2]; [ | discriminate ].
    injection H as <- <-. simpl in Hf. destruct Hf as (Hk & He & _).
    exists bn, a. repeat split; assumption.
  - rewrite (process_game_analysis_invalid data e w Hc) in H. discriminate.
Qed.

End Pipeline.

(** ** Text: lengths, padding and slices *)

Lemma length_append (s1 s2 : string) :
  String.length (s1 ++ s2) = String.length s1 + String.length s2.
Proof. induction s1 as [ | a s1 IH]; simpl; [reflexivity | now rewrite IH]. Qed.

Lemma length_zeros (k : nat) : String.length (String.concat "" (repeat "0" k)) = k.
Proof.
  induction k as [ | k IH]; [reflexivity | ].
  destruct k as [ | k]; [reflexivity | ].
  change (repeat "0" (S (S k))) with ("0" :: repeat "0" (S k)).
  change (String.concat "" ("0" :: repeat "0" (S k)))
    with ("0" ++ "" ++ String.concat "" (repeat "0" (S k))).
  rewrite !length_append, IH. reflexivity.
Qed.

(** Padding gives at least the width asked for, and changes nothing when
    the text is already that wide. *)
Lemma length_zfill (width : nat) (s : string) :
  String.length (zfill width s) = Nat.max width (String.length s).
Proof. unfold zfill. rewrite length_append, length_zeros. lia. Qed.

(** A slice [s[:n]] of a text of at least [n] characters has [n] of them. *)
Lemma length_slice (n : nat) (s : string) :
  n <= String.length s -> String.length (substring 0 n s) = n.
Proof.
  revert s. induction n as [ | n IH]; intros s H.
  - destruct s; reflexivity.
  - destruct s as [ | a s]; simpl in *; [lia | ]. rewrite IH; [reflexivity | lia].
Qed.

(** The text of a UUID starts with eight hexadecimal digits, so the
    identifier cut from it always has eight characters. *)
Lemma length_report_id (u : N) : String.length (substring 0 8 (Uuid.str u)) = 8.
Proof.
  apply length_slice. unfold Uuid.str. cbv zeta.
  rewrite length_append, length_slice; [lia | ].
  unfold format_032x. rewrite length_zfill. lia.
Qed.

(** ** Reading back what [strftime] wrote *)

Lemma strip_app (p rest : string) : Reader.strip p (p ++ rest) = Some rest.
Proof.
  induction p as [ | a p IH]; simpl.
  - destruct rest; reflexivity.
  - rewrite Ascii.eqb_refl. exact IH.
Qed.

Lemma digits_app (k : nat) (acc v : Z) (s rest : string) :
  Reader.digits k acc s = Some (v, EmptyString) ->
  Reader.digits k acc (s ++ rest) = Some (v, rest).
Proof.
  revert acc s. induction k as [ | k IH]; intros acc s H; simpl in *.
  - injection H as -> ->. reflexivity.
  - destruct s as [ | c s]; [discriminate | ]. simpl.
    destruct (Reader.digit_of_ascii c); [ | discriminate ]. now apply IH.
Qed.

Lemma digits_format (width : nat) (n : Z) (rest : string) :
  reads_back width n = true ->
  Reader.digits width 0 (format_0d width n ++ rest) = Some (n, rest).
Proof.
  unfold reads_back. intros H. apply digits_app.
  destruct (Reader.digits width 0 (format_0d width n)) as [[v [ | ]] | ];
    try discriminate.
  apply Z.eqb_eq in H. now subst.
Qed.

(** A check that holds on [0, 1, ..., bound - 1] holds below [bound]. *)
Lemma forallb_below (P : Z -> bool) (bound : nat) :
  forallb P (map Z.of_nat (seq 0 bound)) = true ->
  forall n, (0 <= n < Z.of_nat bound)%Z -> P n = true.
Proof.
  intros H n Hn. rewrite forallb_forall in H. apply H.
  apply in_map_iff. exists (Z.to_nat n). split; [lia | ].
  apply in_seq. lia.
Qed.

Lemma reads_back_2 (n : Z) : (0 <= n < 100)%Z -> reads_back 2 n = true.
Proof. apply (forallb_below (reads_back 2) 100). vm_compute. reflexivity. Qed.

Lemma reads_back_4 (n : Z) : (0 <= n < 10000)%Z -> reads_back 4 n = true.
Proof. apply (forallb_below (reads_back 4) 10000). vm_compute. reflexivity. Qed.

(** From the year 1000 on, the year written without padding has its four
    digits. *)
Lemma format_d_four_digits (y : Z) :
  (1000 <= y <= 9999)%Z -> format_d y = format_0d 4 y.
Proof.
  intros H.
  assert (Hall : forall n, (0 <= n < 10000)%Z ->
                           (n <? 1000)%Z || String.eqb (format_d n) (format_0d 4 n) = true).
  { apply (forallb_below
             (fun n => (n <? 1000)%Z || String.eqb (format_d n) (format_0d 4 n)) 10000).
    vm_compute. reflexivity. }
  specialize (Hall y ltac:(lia)).
  apply orb_prop in Hall. destruct Hall as [Hlt | Heq].
  - apply Z.ltb_lt in Hlt. lia.
  - apply String.eqb_eq in Heq. exact Heq.
Qed.

Lemma month_of_name (m : Z) (rest : string) :
  (1 <= m <= 12)%Z ->
  Reader.month_of Reader.months (month_name m ++ rest) = Some (m, rest).
Proof.
  intros H.
  assert (Hm : In m Reader.months).
  { unfold Reader.months. simpl. lia. }
  unfold Reader.months in Hm. simpl in Hm.
  repeat (destruct Hm as [<- | Hm]; [reflexivity | ]). contradiction.
Qed.

Lemma strftime_generated_at (t : datetime) :
  strftime "%B %d, %Y at %I:%M %p" t =
    month_name (month t) ++ " " ++ format_0d 2 (day t) ++ ", "
      ++ format_d (year t) ++ " at " ++ format_0d 2 (hour12 (hour t)) ++ ":"
      ++ format_0d 2 (minute t) ++ " " ++ (if (hour t <? 12)%Z then "AM" else "PM").
Proof.
  cbv [strftime strftime_directive]. destruct (hour t <? 12)%Z; reflexivity.
Qed.

Lemma hour12_range (h : Z) : (0 <= h < 24)%Z -> (1 <= hour12 h <= 12)%Z.
Proof.
  intros H. unfold hour12.
  pose proof (Z.mod_pos_bound h 12 ltac:(lia)).
  destruct (h mod 12 =? 0)%Z eqn:E; [lia | ]. apply Z.eqb_neq in E. lia.
Qed.

Lemma hour12_back (h : Z) :
  (0 <= h < 24)%Z ->
  (hour12 h mod 12 + (if (h <? 12)%Z then 0 else 12) = h)%Z.
Proof.
  intros H. unfold hour12.
  destruct (h <? 12)%Z eqn:L; [apply Z.ltb_lt in L | apply Z.ltb_ge in L].
  - rewrite (Z.mod_small h 12) by lia.
    destruct (h =? 0)%Z eqn:E; [apply Z.eqb_eq in E; subst; reflexivity | ].
    rewrite Z.mod_small by lia. lia.
  - replace (h mod 12)%Z with (h - 12)%Z.
    + destruct (h - 12 =? 0)%Z eqn:E;
        [apply Z.eqb_eq in E; replace h with 12%Z by lia; reflexivity | ].
      apply Z.eqb_neq in E. rewrite Z.mod_small by lia. lia.
    + apply Z.mod_unique with (q := 1%Z); lia.
Qed.

(** The timestamp of a valid [datetime] whose year has four digits is read
    back as that date and time, to the minute. *)
Lemma generated_at_reads_back (t : datetime) :
  valid_datetime t = true ->
  (1000 <= year t)%Z ->
  Reader.parse_generated_at (strftime "%B %d, %Y at %I:%M %p" t)
  = Some (to_the_minute t).
Proof.
  intros V Y. pose proof V as V'. unfold valid_datetime in V'.
  repeat (apply andb_prop in V'; destruct V' as [V' ?]).
  repeat match goal with
         | H : (_ <=? _)%Z = true |- _ => apply Z.leb_le in H
         | H : (_ <? _)%Z = true |- _ => apply Z.ltb_lt in H
         end.
  assert (Hd : (day t <= 31)%Z).
  { assert (days_in_month (year t) (month t) <= 31)%Z; [ | lia ].
    unfold days_in_month.
    destruct (month t) as [ | p | p ]; try lia.
    do 4 (try destruct p as [ p | p | ]; try lia);
      destruct (is_leap (year t)); lia. }
  pose proof (hour12_range (hour t) ltac:(lia)) as Hh.
  rewrite strftime_generated_at, format_d_four_digits by lia.
  unfold Reader.parse_generated_at.
  rewrite month_of_name by lia. cbn [Reader.and_then].
  rewrite strip_app. cbn [Reader.and_then].
  rewrite digits_format by (apply reads_back_2; lia). cbn [Reader.and_then].
  rewrite strip_app. cbn [Reader.and_then].
  rewrite digits_format by (apply reads_back_4; lia). cbn [Reader.and_then].
  rewrite strip_app. cbn [Reader.and_then].
  rewrite digits_format by (apply reads_back_2; lia). cbn [Reader.and_then].
  rewrite strip_app. cbn [Reader.and_then].
  rewrite digits_format by (apply reads_back_2; lia). cbn [Reader.and_then].
  rewrite strip_app. cbn [Reader.and_then].
  pose proof (hour12_back (hour t) ltac:(lia)) as Hb.
  assert (Hv : forall pm : bool,
             (if pm then 12 else 0)%Z = (if (hour t <? 12)%Z then 0 else 12)%Z ->
             (if (1 <=? hour12 (hour t))%Z && (hour12 (hour t) <=? 12)%Z
                 && valid_datetime
                      (mk_datetime (year t) (month t) (day t)
                         (hour12 (hour t) mod 12 + (if pm then 12 else 0))
                         (minute t) 0 0)
              then Some (mk_datetime (year t) (month t) (day t)
                           (hour12 (hour t) mod 12 + (if pm then 12 else 0))
                           (minute t) 0 0)
              else None) = Some (to_the_minute t)).
  { intros pm Hpm. rewrite Hpm, Hb.
    replace ((1 <=? hour12 (hour t))%Z) with true by (symmetry; apply Z.leb_le; lia).
    replace ((hour12 (hour t) <=? 12)%Z) with true by (symmetry; apply Z.leb_le; lia).
    assert (V2 : valid_datetime (to_the_minute t) = true).
    { destruct t as [y mo d h mi sec us]. unfold valid_datetime in *. simpl in *.
      rewrite !andb_true_iff in *. intuition. }
    unfold to_the_minute in *. rewrite V2. reflexivity. }
  destruct (hour t <? 12)%Z eqn:L.
  - change (Reader.am_pm "AM") with (Some (false, EmptyString)).
    cbn [Reader.and_then]. apply (Hv false). reflexivity.
  - change (Reader.am_pm "PM") with (Some (true, EmptyString)).
    cbn [Reader.and_then]. apply (Hv true). reflexivity.
Qed.

(** ** The claims about the handlers *)

Section Claims.

Variable py_repr : pyval -> string.
Variable test_page_html : string.

(** X19. The degraded mode: when the client handle is [None] and the line about
    the name can be printed, a request whose two required fields are present
    and not [None] gets from [process_game_analysis] a returned dict whose
    [success] is [True] and whose [analysis] is the explanatory text; in the
    same world [GET /api/health] answers with [openai_configured] equal to
    [False]. *)
Lemma degraded_mode_printable (d : dict) (bn gd : pyval) (w : World) :
  dict_get d "business_name" = Some bn -> is_None bn = false ->
  dict_get d "game_data" = Some gd -> is_None gd = false ->
  encodable (log_line py_repr bn) = true ->
  client (globals w) = None ->
  (exists r w',
      process_game_analysis py_repr (PDict d) w = (Ok r, w')
      /\ py_field r "success" = Some (PBool true)
      /\ py_field r "analysis" = Some (PStr not_initialized))
  /\ (exists h,
         fst (health_check w) = Ok h
         /\ status h = 200%Z
         /\ py_field2 (body h) "environment" "openai_configured" = Some (PBool false)).
Proof.
  intros Hbn Nbn Hgd Ngd Hp Hc. split.
  - rewrite (process_game_analysis_valid py_repr d bn gd w Hbn Nbn Hgd Ngd), Hp.
    rewrite analyze_game_no_client by exact Hc.
    eexists; eexists. split; [reflexivity | split; reflexivity].
  - unfold health_check, bind, datetime_now, read_client, ret. rewrite Hc.
    eexists. split; [reflexivity | split; reflexivity].
Qed.

(** C2. For a body that is a JSON object in which [business_name] or
    [game_data] is absent or [null], [POST /api/analyze-game] answers 400
    with [{"error": "Missing required field: <field>"}], where [<field>] is
    a required field that is missing, and the world is left as it was: in
    particular no call to the completion service is made. *)
Theorem C2_missing_field_400 (d : dict) (w : World) :
  missing d "business_name" = true \/ missing d "game_data" = true ->
  exists field,
    In field required_fields
    /\ missing d field = true
    /\ api_analyze_game py_repr (mk_http_request (Ok (PDict d))) w =
         (Ok (mk_response 400
                (PDict [("error", PStr ("Missing required field: " ++ field))])), w)
    /\ upstream_calls (snd (api_analyze_game py_repr (mk_http_request (Ok (PDict d))) w))
       = upstream_calls w.
Proof.
  intros H.
  assert (Hrun : forall e,
             check_required (PDict d) required_fields = Raise (ValueError e) ->
             api_analyze_game py_repr (mk_http_request (Ok (PDict d))) w =
               (Ok (mk_response 400 (PDict [("error", PStr e)])), w)).
  { intros e He. unfold api_analyze_game, try_except.
    unfold bind at 1. unfold lift at 1. cbn [json is_None].
    unfold bind at 1.
    rewrite (process_game_analysis_invalid py_repr _ _ w He). reflexivity. }
  pose proof (check_required_dict d) as Hc.
  destruct (missing d "business_name") eqn:Mb.
  - exists "business_name". rewrite (Hrun _ Hc).
    repeat split; simpl; auto.
  - destruct H as [H | H]; [discriminate | ]. rewrite H in Hc.
    exists "game_data". rewrite (Hrun _ Hc).
    repeat split; simpl; auto.
Qed.

(** C3, as amended.  The two required fields are only checked for presence
    and for [None]: a body that binds both to text, empty or not, passes
    validation; and when the line about the name can be printed, the request
    is processed: with a client configured, the completion service is called
    with the description as it is. *)
Theorem C3_text_fields_accepted (d : dict) (name descr : string) (c : OpenAI) (w : World) :
  dict_get d "business_name" = Some (PStr name) ->
  dict_get d "game_data" = Some (PStr descr) ->
  encodable (log_line py_repr (PStr name)) = true ->
  client (globals w) = Some c ->
  check_required (PDict d) required_fields = Ok tt
  /\ upstream_calls (snd (process_game_analysis py_repr (PDict d) w)) =
       (upstream_calls w
          ++ [completion_request_for (prompt_before ++ descr ++ prompt_after)])%list.
Proof.
  intros Hbn Hgd Hp Hc. split.
  - rewrite check_required_dict. unfold missing. rewrite Hbn, Hgd. reflexivity.
  - rewrite (process_game_analysis_valid py_repr d _ _ w Hbn eq_refl Hgd eq_refl), Hp.
    pose proof (analyze_game_calls py_repr (PStr descr) c
                  (with_stdout (stdout w ++ [log_line py_repr (PStr name)])%list w) Hc)
      as Hcalls.
    destruct (analyze_game py_repr (PStr descr) _) as [[a | e] w']; exact Hcalls.
Qed.

(** X20. When [request.json] is [None], as for the body [null],
    [POST /api/analyze-game] answers 400 with exactly
    [{"error": "No JSON data provided"}] and changes nothing. *)
Lemma null_body_400 (req : request) (w : World) :
  json req = Ok PNone ->
  api_analyze_game py_repr req w =
    (Ok (mk_response 400 (PDict [("error", PStr "No JSON data provided")])), w).
Proof.
  intros H. unfold api_analyze_game, try_except, bind, lift. rewrite H. reflexivity.
Qed.

(** C5. With a client configured, [analyze_game] on a description makes
    exactly one call to the completion service: model ["gpt-4"], two
    messages (the fixed system message, then a user message that is the
    fixed template with the description formatted in its place: a text
    description stands there as it is), temperature 0.85 and at most 2000
    tokens. *)
Theorem C5_completion_call (business_data : pyval) (c : OpenAI) (w : World) :
  client (globals w) = Some c ->
  exists req,
    upstream_calls (snd (analyze_game py_repr business_data w)) =
      (upstream_calls w ++ [req])%list
    /\ model req = "gpt-4"
    /\ messages req =
         [mk_message "system" system_message;
          mk_message "user"
            (prompt_before ++ py_format py_repr business_data ++ prompt_after)]
    /\ (forall descr, business_data = PStr descr ->
        py_format py_repr business_data = descr)
    /\ temperature req = 0.85%float
    /\ max_tokens req = 2000%Z.
Proof.
  intros Hc. eexists. split.
  - apply (analyze_game_calls py_repr business_data c w Hc).
  - repeat split. intros descr ->. reflexivity.
Qed.

(** C6. The [report_id] of every response that [process_game_analysis]
    returns is a text of exactly 8 characters: the first 8 of the text of the
    version-4 UUID made from the random bytes of the request. *)
Theorem C6_report_id_length (data r : pyval) (w w' : World) :
  process_game_analysis py_repr data w = (Ok r, w') ->
  exists rid,
    py_field r "report_id" = Some (PStr rid)
    /\ rid = substring 0 8 (Uuid.str (Uuid.uuid4 (entropy w)))
    /\ String.length rid = 8.
Proof.
  intros H.
  destruct (process_game_analysis_returned py_repr data r w w' H)
    as (bn & a & _ & -> & _ & He).
  exists (substring 0 8 (Uuid.str (Uuid.uuid4 (entropy w)))).
  repeat split.
  - simpl. rewrite He. reflexivity.
  - apply length_report_id.
Qed.

(** C7. The [generated_at] of every response that [process_game_analysis]
    returns is the clock's reading written with ["%B %d, %Y at %I:%M %p"];
    for a clock whose year has four digits that text reads back, under the
    pattern "<Month name> DD, YYYY at HH:MM AM/PM", as the same calendar date
    and time of day to the minute. *)
Theorem C7_generated_at_format (data r : pyval) (w w' : World) :
  process_game_analysis py_repr data w = (Ok r, w') ->
  valid_datetime (clock w) = true ->
  (1000 <= year (clock w))%Z ->
  exists ts,
    py_field r "generated_at" = Some (PStr ts)
    /\ ts = strftime "%B %d, %Y at %I:%M %p" (clock w)
    /\ Reader.parse_generated_at ts = Some (to_the_minute (clock w))
    /\ valid_datetime (to_the_minute (clock w)) = true.
Proof.
  intros H V Y.
  destruct (process_game_analysis_returned py_repr data r w w' H)
    as (bn & a & _ & -> & Hc & _).
  exists (strftime "%B %d, %Y at %I:%M %p" (clock w)).
  repeat split.
  - simpl. rewrite Hc. reflexivity.
  - apply generated_at_reads_back; [exact V | exact Y].
  - destruct (clock w) as [y mo d h mi sec us].
    unfold valid_datetime in *. simpl in *.
    rewrite !andb_true_iff in *. intuition.
Qed.

(** C8. Every response that [process_game_analysis] returns has [success]
    equal to [True] and, under [business_name], the very value that the
    input binds to [business_name]. *)
Theorem C8_success_and_echo (data r : pyval) (w w' : World) :
  process_game_analysis py_repr data w = (Ok r, w') ->
  py_field r "success" = Some (PBool true)
  /\ exists bn,
       py_field data "business_name" = Some bn
       /\ py_field r "business_name" = Some bn.
Proof.
  intros H.
  destruct (process_game_analysis_returned py_repr data r w w' H)
    as (bn & a & Hbn & -> & _).
  split; [reflexivity | ]. exists bn. split; [exact Hbn | reflexivity].
Qed.

(** C9. No handler assigns a module-level binding: after
    [process_game_analysis] and after each route handler, whatever the
    request and whatever the outcome, the client handle and the other
    module-level bindings, and the environment, are what they were
    before. *)
Theorem C9_handlers_read_only :
  (forall data, read_only (process_game_analysis py_repr data))
  /\ (forall req, read_only (api_analyze_game py_repr req))
  /\ read_only (test_endpoint py_repr)
  /\ read_only home
  /\ read_only health_check
  /\ read_only (test_page test_page_html).
Proof.
  repeat split.
  all: first
         [ apply read_only_process_game_analysis
         | apply read_only_api_analyze_game
         | apply read_only_test_endpoint
         | apply read_only_home
         | apply read_only_health_check
         | apply read_only_test_page ].
Qed.

(** C10. [GET /] looks only at [OPENAI_KEY] and [OPENAI_API_KEY], the
    start-up code also at [OPENAI_TOKEN]: in a process whose environment
    sets only [OPENAI_TOKEN], once the start-up code has built the client
    from it, the root endpoint answers [openai_key_set] false and
    [client_ready] true. *)
Theorem C10_token_only (w : World) (token : string) (c : OpenAI) :
  truthy (environ_get (environ w) "OPENAI_KEY") = false ->
  truthy (environ_get (environ w) "OPENAI_API_KEY") = false ->
  environ_get (environ w) "OPENAI_TOKEN" = Some token ->
  truthy (Some token) = true ->
  openai_new w token = Ok c ->
  let started := snd (init_client w) in
  client (globals started) = Some c
  /\ exists r,
       fst (home started) = Ok r
       /\ status r = 200%Z
       /\ py_field2 (body r) "environment_check" "openai_key_set" = Some (PBool false)
       /\ py_field2 (body r) "environment_check" "client_ready" = Some (PBool true).
Proof.
  intros K1 K2 K3 T Hnew.
  assert (Hinit : init_client w =
            (Ok tt,
             with_stdout (stdout w ++ ["✅ OpenAI client initialized successfully"])%list
               (with_globals (mk_globals (Some token) (Some c)) w))).
  { unfold init_client, try_except, bind, os_environ_get, assign_api_key, OpenAI_new,
      assign_client, print, py_or.
    rewrite K1, K3. unfold py_or. rewrite K2.
    destruct token as [ | a k]; [discriminate | ].
    cbn. rewrite Hnew. reflexivity. }
  cbv zeta. rewrite Hinit. cbn [snd]. split; [reflexivity | ].
  unfold home, bind, os_environ_get, read_client, ret, py_or. cbn [environ with_stdout with_globals globals client].
  rewrite K1. eexists. split; [reflexivity | ].
  cbn. rewrite K2. repeat split.
Qed.

End Claims.

(** ** The claims at concrete requests *)

(** C1. The claim fails on a name that standard output cannot encode: the
    body [{"business_name": "\ud800", "game_data": "x"}] has its two fields
    present and not [None], the client handle is [None], and
    [process_game_analysis] raises the [UnicodeEncodeError] of its [print]
    where the claim has it return; the route answers 400 with the text of
    that exception. *)
Theorem C1_unprintable_name_raises :
  check_required (PDict body_surrogate) required_fields = Ok tt
  /\ client (globals world0) = None
  /\ process_game_analysis no_repr (PDict body_surrogate) world0 =
       (Raise (ValueError
                 "'utf-8' codec can't encode character '\ud800' in position 24: surrogates not allowed"),
        world0)
  /\ api_analyze_game no_repr (mk_http_request (Ok (PDict body_surrogate))) world0 =
       (Ok (mk_response 400
              (PDict [("error",
                       PStr "'utf-8' codec can't encode character '\ud800' in position 24: surrogates not allowed")])),
        world0).
Proof. repeat split. Qed.

Lemma degraded_mode_printable_witness :
  (exists r w',
      process_game_analysis no_repr (PDict body0) world0 = (Ok r, w')
      /\ py_field r "success" = Some (PBool true)
      /\ py_field r "analysis" = Some (PStr not_initialized))
  /\ (exists h,
         fst (health_check world0) = Ok h
         /\ status h = 200%Z
         /\ py_field2 (body h) "environment" "openai_configured" = Some (PBool false)).
Proof.
  apply (degraded_mode_printable no_repr body0
           (PStr "Space Tactics")
           (PStr "A turn-based tactics game set on a derelict space station.")
           world0); reflexivity.
Defined.

Lemma C2_missing_field_400_witness :
  exists field,
    In field required_fields
    /\ missing body_no_game_data field = true
    /\ api_analyze_game no_repr (mk_http_request (Ok (PDict body_no_game_data))) world0 =
         (Ok (mk_response 400
                (PDict [("error", PStr ("Missing required field: " ++ field))])), world0)
    /\ upstream_calls
         (snd (api_analyze_game no_repr (mk_http_request (Ok (PDict body_no_game_data))) world0))
       = upstream_calls world0.
Proof.
  apply (C2_missing_field_400 no_repr body_no_game_data world0). right. reflexivity.
Defined.

(** C3, as stated, fails: a body whose two fields are the empty text passes
    validation, and the route answers 200 with [success] true. *)
Lemma C3_empty_text_not_rejected :
  check_required (PDict body_empty_text) required_fields = Ok tt
  /\ exists r,
       fst (api_analyze_game no_repr (mk_http_request (Ok (PDict body_empty_text))) world0)
       = Ok r
       /\ status r = 200%Z
       /\ py_field (body r) "success" = Some (PBool true)
       /\ py_field (body r) "business_name" = Some (PStr "").
Proof.
  split; [reflexivity | ].
  eexists. split; [vm_compute; reflexivity | ]. repeat split.
Qed.

Lemma C3_text_fields_accepted_witness :
  check_required (PDict body_empty_text) required_fields = Ok tt
  /\ upstream_calls (snd (process_game_analysis no_repr (PDict body_empty_text) world1)) =
       (upstream_calls world1
          ++ [completion_request_for (prompt_before ++ "" ++ prompt_after)])%list.
Proof.
  apply (C3_text_fields_accepted no_repr body_empty_text "" "" (mk_OpenAI "sk-test") world1);
    reflexivity.
Defined.

(** C4. The claim fails on the requests it is about: for a request without
    a body, and for one whose body is no JSON, evaluating [request.json]
    raises, and the second [except] clause answers 500 with the text of the
    exception, not 400 with ["No JSON data provided"]. *)
Theorem C4_no_body_answered_500 :
  fst (api_analyze_game no_repr request_no_body world0)
  = Ok (mk_response 500
          (PDict [("error",
                   PStr ("415 Unsupported Media Type: Did not attempt to load JSON data because the request Content-Type was not "
                           ++ sq ++ "application/json" ++ sq ++ "."))]))
  /\ fst (api_analyze_game no_repr request_bad_json world0)
     = Ok (mk_response 500
             (PDict [("error",
                      PStr "400 Bad Request: The browser (or proxy) sent a request that this server could not understand.")])).
Proof. split; reflexivity. Qed.

Lemma null_body_400_witness :
  api_analyze_game no_repr (mk_http_request (Ok PNone)) world0 =
    (Ok (mk_response 400 (PDict [("error", PStr "No JSON data provided")])), world0).
Proof.
  apply (null_body_400 no_repr (mk_http_request (Ok PNone)) world0). reflexivity.
Defined.

Lemma C5_completion_call_witness :
  exists req,
    upstream_calls (snd (analyze_game no_repr (PStr "A farming game.") world1)) =
      (upstream_calls world1 ++ [req])%list
    /\ model req = "gpt-4"
    /\ messages req =
         [mk_message "system" system_message;
          mk_message "user"
            (prompt_before ++ py_format no_repr (PStr "A farming game.") ++ prompt_after)]
    /\ (forall descr, PStr "A farming game." = PStr descr ->
        py_format no_repr (PStr "A farming game.") = descr)
    /\ temperature req = 0.85%float
    /\ max_tokens req = 2000%Z.
Proof.
  apply (C5_completion_call no_repr (PStr "A farming game.") (mk_OpenAI "sk-test") world1).
  reflexivity.
Defined.

Lemma C6_report_id_length_witness :
  exists rid,
    py_field response1 "report_id" = Some (PStr rid)
    /\ rid = substring 0 8 (Uuid.str (Uuid.uuid4 (entropy world1)))
    /\ String.length rid = 8.
Proof.
  apply (C6_report_id_length no_repr (PDict body0) response1 world1 world1_after).
  reflexivity.
Defined.

Lemma C7_generated_at_format_witness :
  exists ts,
    py_field response1 "generated_at" = Some (PStr ts)
    /\ ts = strftime "%B %d, %Y at %I:%M %p" (clock world1)
    /\ Reader.parse_generated_at ts = Some (to_the_minute (clock world1))
    /\ valid_datetime (to_the_minute (clock world1)) = true.
Proof.
  apply (C7_generated_at_format no_repr (PDict body0) response1 world1 world1_after).
  - reflexivity.
  - reflexivity.
  - simpl. lia.
Defined.

Lemma C8_success_and_echo_witness :
  py_field response1 "success" = Some (PBool true)
  /\ exists bn,
       py_field (PDict body0) "business_name" = Some bn
       /\ py_field response1 "business_name" = Some bn.
Proof.
  apply (C8_success_and_echo no_repr (PDict body0) response1 world1 world1_after).
  reflexivity.
Defined.

Lemma C10_token_only_witness :
  client (globals (snd (init_client world_token))) = Some (mk_OpenAI "sk-token")
  /\ exists r,
       fst (home (snd (init_client world_token))) = Ok r
       /\ status r = 200%Z
       /\ py_field2 (body r) "environment_check" "openai_key_set" = Some (PBool false)
       /\ py_field2 (body r) "environment_check" "client_ready" = Some (PBool true).
Proof.
  apply (C10_token_only world_token "sk-token" (mk_OpenAI "sk-token")); reflexivity.
Defined.

(** ** More examples *)

Example ex_report_id :
  py_field (analysis_response (PStr "X") (PStr "text") world0) "report_id"
  = Some (PStr "5a5a5a5a").
Proof. vm_compute. reflexivity. Qed.

(** A completion call that raises is answered with 500 and the text of the
    exception, after the call was made. *)
Example ex_upstream_failure :
  let out := api_analyze_game no_repr (mk_http_request (Ok (PDict body0))) world_down in
  fst out = Ok (mk_response 500 (PDict [("error", PStr "Connection error.")]))
  /\ List.length (upstream_calls (snd out)) = 1.
Proof. vm_compute. split; reflexivity. Qed.

(** The start-up code is the one place that assigns the handle. *)
Example ex_init_client_assigns :
  client (globals world_token) = None
  /\ client (globals (snd (init_client world_token))) = Some (mk_OpenAI "sk-token").
Proof. split; reflexivity. Qed.

(** With no credential at all the handle stays [None] and the process goes on. *)
Example ex_init_client_no_key :
  init_client world0 =
    (Ok tt,
     with_stdout
       ["❌ Failed to initialize OpenAI client: OpenAI API key not found in environment variables"]
       world0).
Proof. reflexivity. Qed.

(** A body that is valid JSON but no object ends in the second [except]. *)
Example ex_not_a_mapping :
  fst (api_analyze_game no_repr (mk_http_request (Ok (PInt 3))) world0)
  = Ok (mk_response 500
          (PDict [("error", PStr ("argument of type " ++ sq ++ "int" ++ sq ++ " is not iterable"))])).
Proof. reflexivity. Qed.

Example ex_test_endpoint :
  exists r,
    fst (test_endpoint no_repr world0) = Ok r
    /\ status r = 200%Z
    /\ py_field (body r) "business_name" = Some (PStr "Sample Game Idea").
Proof. eexists. split; [vm_compute; reflexivity | ]. split; reflexivity. Qed.

(* ================================================================= *)
(** * Further properties of the code *)

(** ** Start-up *)

(** What the start-up code does, case by case; it raises only when the
    line about the constructor's exception cannot be printed. *)
Lemma init_client_cases (w : World) :
  init_client w =
    match resolved_key (environ w) with
    | Some (String a k) =>
        match openai_new w (String a k) with
        | Ok c =>
            (Ok tt,
             with_stdout (stdout w ++ ["✅ OpenAI client initialized successfully"])%list
               (with_globals (mk_globals (Some (String a k)) (Some c)) w))
        | Raise e =>
            if encodable (init_error_line e)
            then
              (Ok tt,
               with_globals (mk_globals (Some (String a k)) None)
                 (with_stdout (stdout w ++ [init_error_line e])%list w))
            else
              (Raise (ValueError (unicode_encode_error (init_error_line e))),
               with_globals (mk_globals (Some (String a k)) (client (globals w))) w)
        end
    | key =>
        (Ok tt,
         with_globals (mk_globals key None)
           (with_stdout
              (stdout w
                 ++ ["❌ Failed to initialize OpenAI client: OpenAI API key not found in environment variables"])%list
              w))
    end.
Proof.
  unfold init_client, try_except, bind, os_environ_get, assign_api_key, OpenAI_new,
    assign_client, raise, resolved_key.
  destruct (py_or (py_or _ _) _) as [[ | a k] | ]; try reflexivity.
  cbn [fst snd openai_new with_globals globals client api_key environ].
  destruct (openai_new w (String a k)) as [c | e]; [reflexivity | ].
  unfold print. fold (init_error_line e).
  destruct (encodable (init_error_line e)); reflexivity.
Qed.

(** X1. The start-up code never raises and prints exactly one line,
    whatever the environment holds and whether the constructor of the client
    returns or raises, provided that the line about an exception of the
    constructor can be printed. *)
Theorem init_client_never_raises (w : World) :
  (forall key e, openai_new w key = Raise e -> encodable (init_error_line e) = true) ->
  fst (init_client w) = Ok tt
  /\ exists line, stdout (snd (init_client w)) = (stdout w ++ [line])%list.
Proof.
  intros Hp. rewrite init_client_cases.
  destruct (resolved_key (environ w)) as [[ | a k] | ];
    try (split; [reflexivity | eexists; reflexivity]).
  destruct (openai_new w (String a k)) as [c | e] eqn:Hn.
  - split; [reflexivity | eexists; reflexivity].
  - rewrite (Hp _ _ Hn). split; [reflexivity | eexists; reflexivity].
Qed.

(** X2. After start-up the handle is a client exactly when one of the three
    variables is set to a non-empty text and the constructor accepts the
    first such value, taken in the order [OPENAI_KEY], [OPENAI_API_KEY],
    [OPENAI_TOKEN]; otherwise it is [None].  [api_key] is bound to the
    resolved value in every case.  The line about an exception of the
    constructor is taken to be printable. *)
Theorem init_client_handle (w : World) :
  (forall key e, openai_new w key = Raise e -> encodable (init_error_line e) = true) ->
  client (globals (snd (init_client w))) =
    match resolved_key (environ w) with
    | Some (String a k) =>
        match openai_new w (String a k) with
        | Ok c => Some c
        | Raise _ => None
        end
    | _ => None
    end
  /\ api_key (globals (snd (init_client w))) = resolved_key (environ w).
Proof.
  intros Hp. rewrite init_client_cases.
  destruct (resolved_key (environ w)) as [[ | a k] | ]; try (split; reflexivity).
  destruct (openai_new w (String a k)) as [c | e] eqn:Hn.
  - split; reflexivity.
  - rewrite (Hp _ _ Hn). split; reflexivity.
Qed.

Lemma resolved_key_set (env : list (string * string)) :
  truthy (py_or (environ_get env "OPENAI_KEY") (environ_get env "OPENAI_API_KEY")) = true ->
  truthy (resolved_key env) = true.
Proof. unfold resolved_key. intros H. unfold py_or at 1. rewrite H. exact H. Qed.

(** X3. When the constructor of the client does not raise, a root endpoint
    that reports [openai_key_set] true after start-up also reports
    [client_ready] true. *)
Theorem home_key_set_implies_ready (w : World) :
  (forall key, exists c, openai_new w key = Ok c) ->
  exists r key_set ready,
    fst (home (snd (init_client w))) = Ok r
    /\ py_field2 (body r) "environment_check" "openai_key_set" = Some (PBool key_set)
    /\ py_field2 (body r) "environment_check" "client_ready" = Some (PBool ready)
    /\ (key_set = true -> ready = true).
Proof.
  intros Hnew.
  assert (Hc : client (globals (snd (init_client w))) =
               match resolved_key (environ w) with
               | Some (String a k) =>
                   match openai_new w (String a k) with
                   | Ok c => Some c
                   | Raise _ => None
                   end
               | _ => None
               end).
  { rewrite init_client_cases.
    destruct (resolved_key (environ w)) as [[ | a k] | ]; try reflexivity.
    destruct (Hnew (String a k)) as [c ->]. reflexivity. }
  assert (He : environ (snd (init_client w)) = environ w).
  { rewrite init_client_cases.
    destruct (resolved_key (environ w)) as [[ | a k] | ]; try reflexivity.
    destruct (Hnew (String a k)) as [c ->]. reflexivity. }
  unfold home, bind, os_environ_get, read_client, ret. cbn [fst]. rewrite He.
  eexists. eexists. eexists. split; [reflexivity | ].
  split; [reflexivity | ]. split; [reflexivity | ].
  intros Hset. apply resolved_key_set in Hset. rewrite Hc.
  destruct (resolved_key (environ w)) as [[ | a k] | ]; try discriminate.
  destruct (Hnew (String a k)) as [c ->]. reflexivity.
Qed.

(** ** The analysis and the routes, outcome by outcome *)

Lemma check_required_None : check_required PNone required_fields <> Ok tt.
Proof. discriminate. Qed.

(** A text put after bytes among which there is no [ED] has a surrogate
    exactly when it had one. *)
Lemma has_surrogate_after (p s : string) :
  string_forallb (fun c => negb (is_lead_ED c)) p = true ->
  has_surrogate (p ++ s) = has_surrogate s.
Proof.
  induction p as [ | c p IH]; intros H; [reflexivity | ].
  simpl in H. apply andb_prop in H. destruct H as [Hc Hp].
  change (String c p ++ s) with (String c (p ++ s)).
  cbn [has_surrogate]. rewrite (IH Hp).
  replace (surrogate_here (String c (p ++ s))) with false; [reflexivity | ].
  unfold surrogate_here. apply negb_true_iff in Hc. rewrite Hc.
  destruct (p ++ s); reflexivity.
Qed.

(** The line of an [except] clause can be printed exactly when the text of
    the exception can. *)
Lemma encodable_error_line (place : string) (e : exn) :
  place = "API" \/ place = "test endpoint" ->
  encodable (error_line place e) = encodable (exn_str e).
Proof.
  unfold encodable. intros [-> | ->].
  - change (error_line "API" e) with ("❌ Error in API: " ++ exn_str e).
    rewrite has_surrogate_after; reflexivity.
  - change (error_line "test endpoint" e) with ("❌ Error in test endpoint: " ++ exn_str e).
    rewrite has_surrogate_after; reflexivity.
Qed.

(** The exceptions of validation are all of them loggable: their texts are
    fixed. *)
Lemma check_required_loggable (data : pyval) (e : exn) :
  check_required data required_fields = Raise e -> loggable e = true.
Proof.
  destruct data as [ | b | z | f | s | l | d ]; intros H;
    try (injection H as <-; reflexivity).
  - unfold required_fields, check_required, py_contains, py_getitem in H.
    destruct (str_contains "business_name" s); injection H as <-; reflexivity.
  - unfold required_fields, check_required, py_contains, py_getitem in H.
    destruct (existsb (eq_str "business_name") l); injection H as <-; reflexivity.
  - rewrite check_required_dict in H.
    destruct (missing d "business_name"); [injection H as <-; reflexivity | ].
    destruct (missing d "game_data"); [injection H as <-; reflexivity | discriminate].
Qed.

Section Outcomes.

Variable py_repr : pyval -> string.

(** With a client, the analysis is what the service answers to the one call
    made. *)
Lemma analyze_game_client (v : pyval) (c : OpenAI) (w : World) :
  client (globals w) = Some c ->
  analyze_game py_repr v w =
    (match completions_create w c (request_for py_repr v) with
     | Ok resp =>
         match choices resp with
         | ch :: _ =>
             Ok (match message_content ch with
                 | Some text => PStr text
                 | None => PNone
                 end)
         | [] => Raise (IndexError "list index out of range")
         end
     | Raise e => Raise e
     end,
     with_upstream_calls (upstream_calls w ++ [request_for py_repr v])%list w).
Proof.
  intros H. unfold analyze_game, bind, read_client, chat_completions_create, lift, ret.
  rewrite H. cbv zeta. fold (completion_request_for (prompt_before ++ py_format py_repr v ++ prompt_after)).
  fold (request_for py_repr v).
  destruct (completions_create w c (request_for py_repr v)) as [resp | e]; [ | reflexivity ].
  destruct (choices resp); reflexivity.
Qed.

(** The two [except] clauses, case by case. *)
Lemma on_error_cases (place : string) (e : exn) (w : World) :
  on_error place e w =
    if is_ValueError e then (Ok (error_response e), w)
    else if encodable (error_line place e)
         then (Ok (error_response e), with_stdout (stdout w ++ [error_line place e])%list w)
         else (Raise (ValueError (unicode_encode_error (error_line place e))), w).
Proof.
  unfold on_error, error_response, bind, print, ret. fold (error_line place e).
  destruct (is_ValueError e); [reflexivity | ].
  destruct (encodable (error_line place e)); reflexivity.
Qed.


Lemma on_error_result (place : string) (e : exn) (w : World) :
  place = "API" \/ place = "test endpoint" ->
  loggable e = true ->
  fst (on_error place e w) = Ok (error_response e)
  /\ upstream_calls (snd (on_error place e w)) = upstream_calls w
  /\ stdout (snd (on_error place e w)) =
       (stdout w ++ if is_ValueError e then [] else [error_line place e])%list.
Proof.
  intros Hplace Hl. rewrite on_error_cases. unfold loggable in Hl.
  destruct (is_ValueError e).
  - repeat split. symmetry. apply app_nil_r.
  - rewrite (encodable_error_line place e Hplace). simpl in Hl. rewrite Hl.
    repeat split.
Qed.

(** The route on a decoded body that is not [None]. *)
Lemma api_analyze_game_body (data : pyval) (w : World) :
  is_None data = false ->
  api_analyze_game py_repr (mk_http_request (Ok data)) w =
    match process_game_analysis py_repr data w with
    | (Ok r, w') => (Ok (jsonify r), w')
    | (Raise e, w') => on_error "API" e w'
    end.
Proof.
  intros H. unfold api_analyze_game, try_except.
  unfold bind at 1. unfold lift at 1. cbn [json]. rewrite H.
  unfold bind at 1.
  destruct (process_game_analysis py_repr data w) as [[r | e] w']; reflexivity.
Qed.

Lemma check_required_not_None (data : pyval) :
  check_required data required_fields = Ok tt -> is_None data = false.
Proof. destruct data; try reflexivity. discriminate. Qed.

(** The exceptions of [process_game_analysis] are loggable when those of
    the completion service are. *)
Lemma process_game_analysis_loggable (data : pyval) (e : exn) (w w' : World) :
  (forall c rq e', completions_create w c rq = Raise e' -> loggable e' = true) ->
  process_game_analysis py_repr data w = (Raise e, w') ->
  loggable e = true.
Proof.
  intros Hs H.
  destruct (check_required data required_fields) as [[] | e0] eqn:Hc.
  - destruct (check_required_ok data Hc) as (d & bn & gd & -> & Hbn & Nbn & Hgd & Ngd).
    rewrite (process_game_analysis_valid py_repr d bn gd w Hbn Nbn Hgd Ngd) in H.
    destruct (encodable (log_line py_repr bn)); [ | injection H as <- _; reflexivity ].
    destruct (client (globals w)) as [c | ] eqn:Hcl.
    + rewrite (analyze_game_client gd c
                 (with_stdout (stdout w ++ [log_line py_repr bn])%list w) Hcl) in H.
      cbn [completions_create with_stdout] in H.
      destruct (completions_create w c (request_for py_repr gd)) as [resp | e1] eqn:Hr.
      * destruct (choices resp); [injection H as <- _; reflexivity | discriminate].
      * injection H as <- _. exact (Hs _ _ _ Hr).
    + rewrite analyze_game_no_client in H by exact Hcl. discriminate.
  - rewrite (process_game_analysis_invalid py_repr data e0 w Hc) in H.
    injection H as <- _. exact (check_required_loggable data e0 Hc).
Qed.

(** X4. Validation passes exactly for a dict that binds [business_name] and
    [game_data] to values other than [None]; text, lists and every other
    decoded value fail it, whatever they contain. *)
Theorem validation_iff (data : pyval) :
  check_required data required_fields = Ok tt
  <-> exists d bn gd,
        data = PDict d
        /\ dict_get d "business_name" = Some bn /\ is_None bn = false
        /\ dict_get d "game_data" = Some gd /\ is_None gd = false.
Proof.
  split.
  - apply check_required_ok.
  - intros (d & bn & gd & -> & Hbn & Nbn & Hgd & Ngd).
    rewrite check_required_dict.
    rewrite (missing_false d _ bn Hbn Nbn), (missing_false d _ gd Hgd Ngd).
    reflexivity.
Qed.

(** X5. [POST /api/analyze-game] always answers, provided that the text of
    an exception raised by [request.json] or by the completion service can
    be printed: whatever [request.json] gives or raises and whatever the
    service does, the handler returns a response and raises nothing.  The
    response is either 200 with the six keys of an analysis, or 400 or 500
    with the single key [error]. *)
Theorem api_analyze_game_always_answers (req : request) (w : World) :
  (forall e, json req = Raise e -> loggable e = true) ->
  (forall c rq e, completions_create w c rq = Raise e -> loggable e = true) ->
  exists r,
    fst (api_analyze_game py_repr req w) = Ok r
    /\ ((status r = 200%Z /\ dict_keys (body r) = analysis_keys)
        \/ ((status r = 400%Z \/ status r = 500%Z) /\ dict_keys (body r) = error_keys)).
Proof.
  intros Hj Hs.
  assert (Herr : forall e w0,
             loggable e = true ->
             exists r, fst (on_error "API" e w0) = Ok r
                       /\ ((status r = 200%Z /\ dict_keys (body r) = analysis_keys)
                           \/ ((status r = 400%Z \/ status r = 500%Z)
                               /\ dict_keys (body r) = error_keys))).
  { intros e w0 Hl. exists (error_response e).
    split; [apply on_error_result; [left; reflexivity | exact Hl] | right].
    unfold error_response. destruct (is_ValueError e); split; auto. }
  destruct req as [[data | e]].
  - destruct (is_None data) eqn:Hn.
    + destruct data; try discriminate.
      eexists. split; [reflexivity | right]. split; auto.
    + rewrite (api_analyze_game_body data w Hn).
      destruct (process_game_analysis py_repr data w) as [[r | e] w'] eqn:Hp.
      * destruct (process_game_analysis_returned py_repr data r w w' Hp)
          as (bn & a & _ & -> & _).
        eexists. split; [reflexivity | left]. split; reflexivity.
      * apply Herr. exact (process_game_analysis_loggable data e w w' Hs Hp).
  - unfold api_analyze_game, try_except, bind, lift. cbn [json].
    apply Herr. apply Hj. reflexivity.
Qed.

(** Past validation, once the line about the name is printed and with a
    client, the route is decided by what the service does with the one
    request. *)
Lemma api_analyze_game_client
    (d : dict) (bn gd : pyval) (c : OpenAI) (w : World) :
  dict_get d "business_name" = Some bn -> is_None bn = false ->
  dict_get d "game_data" = Some gd -> is_None gd = false ->
  encodable (log_line py_repr bn) = true ->
  client (globals w) = Some c ->
  let w1 :=
    with_upstream_calls (upstream_calls w ++ [request_for py_repr gd])%list
      (with_stdout (stdout w ++ [log_line py_repr bn])%list w) in
  api_analyze_game py_repr (mk_http_request (Ok (PDict d))) w =
    match completions_create w c (request_for py_repr gd) with
    | Ok resp =>
        match choices resp with
        | ch :: _ =>
            (Ok (jsonify
                   (analysis_response bn
                      (match message_content ch with
                       | Some text => PStr text
                       | None => PNone
                       end) w1)), w1)
        | [] => on_error "API" (IndexError "list index out of range") w1
        end
    | Raise e => on_error "API" e w1
    end.
Proof.
  intros Hbn Nbn Hgd Ngd Hp Hcl. cbv zeta.
  rewrite (api_analyze_game_body (PDict d) w eq_refl).
  rewrite (process_game_analysis_valid py_repr d bn gd w Hbn Nbn Hgd Ngd), Hp.
  rewrite (analyze_game_client gd c
             (with_stdout (stdout w ++ [log_line py_repr bn])%list w) Hcl).
  cbn [completions_create with_stdout upstream_calls].
  destruct (completions_create w c (request_for py_repr gd)) as [resp | e]; [ | reflexivity ].
  destruct (choices resp); reflexivity.
Qed.

(** X7. When the completion call raises an exception whose text can be
    printed, the route answers with that text: 500, after printing a log
    line, unless the exception is a [ValueError], which is answered 400 like
    a validation failure and is not logged.  The call was made in both
    cases, after the line about the name was printed. *)
Theorem upstream_exception_answer
    (d : dict) (bn gd : pyval) (c : OpenAI) (e : exn) (w : World) :
  dict_get d "business_name" = Some bn -> is_None bn = false ->
  dict_get d "game_data" = Some gd -> is_None gd = false ->
  encodable (log_line py_repr bn) = true ->
  client (globals w) = Some c ->
  completions_create w c (request_for py_repr gd) = Raise e ->
  loggable e = true ->
  let out := api_analyze_game py_repr (mk_http_request (Ok (PDict d))) w in
  fst out = Ok (error_response e)
  /\ upstream_calls (snd out) = (upstream_calls w ++ [request_for py_repr gd])%list
  /\ stdout (snd out) =
       (stdout w ++ [log_line py_repr bn]
          ++ if is_ValueError e then []
             else [("❌ Error in API: " ++ exn_str e)%string])%list.
Proof.
  intros Hbn Nbn Hgd Ngd Hp Hcl Hraise Hl. cbv zeta.
  rewrite (api_analyze_game_client d bn gd c w Hbn Nbn Hgd Ngd Hp Hcl), Hraise.
  match goal with |- context [on_error ?p ?x ?w0] =>
    destruct (on_error_result p x w0 (or_introl eq_refl) Hl) as (-> & -> & ->) end.
  repeat split. cbn [stdout with_upstream_calls with_stdout].
  rewrite <- app_assoc. reflexivity.
Qed.

(** X8. When the service answers without any choice, [response.choices[0]]
    raises [IndexError] and the route answers 500 with
    ["list index out of range"], after the line about the name was printed
    and the call was made. *)
Theorem no_choice_answer
    (d : dict) (bn gd : pyval) (c : OpenAI) (resp : chat_completion) (w : World) :
  dict_get d "business_name" = Some bn -> is_None bn = false ->
  dict_get d "game_data" = Some gd -> is_None gd = false ->
  encodable (log_line py_repr bn) = true ->
  client (globals w) = Some c ->
  completions_create w c (request_for py_repr gd) = Ok resp ->
  choices resp = [] ->
  let out := api_analyze_game py_repr (mk_http_request (Ok (PDict d))) w in
  fst out = Ok (mk_response 500 (PDict [("error", PStr "list index out of range")]))
  /\ upstream_calls (snd out) = (upstream_calls w ++ [request_for py_repr gd])%list.
Proof.
  intros Hbn Nbn Hgd Ngd Hp Hcl Hresp Hch. cbv zeta.
  rewrite (api_analyze_game_client d bn gd c w Hbn Nbn Hgd Ngd Hp Hcl), Hresp, Hch.
  split; reflexivity.
Qed.

(** X9. When the line about the name was printed and the service answers
    with choices, the analysis of the 200 response is the content of the
    first one and the others are ignored; a first choice without text gives
    [None] as the analysis, still with [success] true. *)
Theorem first_choice_answer
    (d : dict) (bn gd : pyval) (c : OpenAI) (resp : chat_completion)
    (ch : choice) (others : list choice) (w : World) :
  dict_get d "business_name" = Some bn -> is_None bn = false ->
  dict_get d "game_data" = Some gd -> is_None gd = false ->
  encodable (log_line py_repr bn) = true ->
  client (globals w) = Some c ->
  completions_create w c (request_for py_repr gd) = Ok resp ->
  choices resp = ch :: others ->
  exists r,
    fst (api_analyze_game py_repr (mk_http_request (Ok (PDict d))) w) = Ok r
    /\ status r = 200%Z
    /\ py_field (body r) "success" = Some (PBool true)
    /\ py_field (body r) "analysis" =
         Some (match message_content ch with
               | Some text => PStr text
               | None => PNone
               end).
Proof.
  intros Hbn Nbn Hgd Ngd Hp Hcl Hresp Hch.
  rewrite (api_analyze_game_client d bn gd c w Hbn Nbn Hgd Ngd Hp Hcl), Hresp, Hch.
  eexists. split; [reflexivity | ]. repeat split.
Qed.

(** X10. A decoded body that is no dict is never analysed: the route
    answers 400 or 500, prints at most its error line, and makes no call to
    the completion service. *)
Theorem non_dict_body_rejected (data : pyval) (w : World) :
  is_dict data = false ->
  let out := api_analyze_game py_repr (mk_http_request (Ok data)) w in
  (exists r, fst out = Ok r /\ (status r = 400%Z \/ status r = 500%Z)
             /\ dict_keys (body r) = error_keys)
  /\ upstream_calls (snd out) = upstream_calls w.
Proof.
  intros Hd. cbv zeta.
  destruct (is_None data) eqn:Hn.
  - destruct data; try discriminate. split; [ | reflexivity ].
    eexists. split; [reflexivity | ]. split; [left | ]; reflexivity.
  - rewrite (api_analyze_game_body data w Hn).
    destruct (check_required data required_fields) as [[] | e] eqn:Hc.
    + destruct (check_required_ok data Hc) as (d & _ & _ & -> & _). discriminate.
    + rewrite (process_game_analysis_invalid py_repr data e w Hc).
      destruct (on_error_result "API" e w (or_introl eq_refl)
                  (check_required_loggable data e Hc)) as (-> & -> & _).
      split; [ | reflexivity ].
      exists (error_response e). split; [reflexivity | ].
      unfold error_response. destruct (is_ValueError e); split; auto.
Qed.

(** X11. When evaluating [request.json] raises an exception whose text can
    be printed, the route answers with that text, 400 for a [ValueError] and
    500 for any other, and makes no call to the completion service. *)
Theorem json_exception_answer (req : request) (e : exn) (w : World) :
  json req = Raise e ->
  loggable e = true ->
  let out := api_analyze_game py_repr req w in
  fst out = Ok (error_response e)
  /\ upstream_calls (snd out) = upstream_calls w.
Proof.
  intros H Hl. cbv zeta. unfold api_analyze_game, try_except, bind, lift. rewrite H.
  destruct (on_error_result "API" e w (or_introl eq_refl) Hl) as (-> & -> & _).
  split; reflexivity.
Qed.


(** X13. [GET /api/health] reports [openai_configured] false exactly when
    the analysis is in its degraded mode: [analyze_game] returns the
    explanatory text and leaves the world as it is. *)
Theorem health_flag_iff_degraded (v : pyval) (w : World) :
  (exists h, fst (health_check w) = Ok h
             /\ py_field2 (body h) "environment" "openai_configured" = Some (PBool false))
  <-> analyze_game py_repr v w = (Ok (PStr not_initialized), w).
Proof.
  split.
  - intros (h & Hh & Hf). apply analyze_game_no_client.
    unfold health_check, bind, datetime_now, read_client, ret in Hh.
    cbn in Hh. injection Hh as <-. cbn in Hf.
    destruct (client (globals w)); [discriminate | reflexivity].
  - intros Ha. destruct (client (globals w)) as [c | ] eqn:Hcl.
    + rewrite (analyze_game_client v c w Hcl) in Ha.
      apply (f_equal snd) in Ha. cbn [snd] in Ha.
      apply (f_equal upstream_calls) in Ha. cbn in Ha.
      apply (f_equal (@List.length _)) in Ha. rewrite length_app in Ha.
      simpl in Ha. lia.
    + unfold health_check, bind, datetime_now, read_client, ret. rewrite Hcl.
      eexists. split; reflexivity.
Qed.

(** What is printed does not matter to what is answered, nor to the calls
    made. *)
Lemma process_game_analysis_stdout (data : pyval) (o : list string) (w : World) :
  fst (process_game_analysis py_repr data (with_stdout o w))
  = fst (process_game_analysis py_repr data w)
  /\ upstream_calls (snd (process_game_analysis py_repr data (with_stdout o w)))
     = upstream_calls (snd (process_game_analysis py_repr data w)).
Proof.
  destruct (check_required data required_fields) as [[] | e] eqn:Hc.
  - destruct (check_required_ok data Hc) as (d & bn & gd & -> & Hbn & Nbn & Hgd & Ngd).
    rewrite !(process_game_analysis_valid py_repr d bn gd _ Hbn Nbn Hgd Ngd).
    destruct (encodable (log_line py_repr bn)); [ | split; reflexivity ].
    destruct (client (globals w)) as [c | ] eqn:Hcl.
    + rewrite (analyze_game_client gd c
                 (with_stdout (stdout w ++ [log_line py_repr bn])%list w) Hcl).
      rewrite (analyze_game_client gd c
                 (with_stdout (stdout (with_stdout o w) ++ [log_line py_repr bn])%list
                    (with_stdout o w)) Hcl).
      cbn [completions_create with_stdout].
      destruct (completions_create w c (request_for py_repr gd)) as [resp | e];
        [ | split; reflexivity ].
      destruct (choices resp); split; reflexivity.
    + rewrite !analyze_game_no_client by exact Hcl. split; reflexivity.
  - rewrite !(process_game_analysis_invalid py_repr data e _ Hc). split; reflexivity.
Qed.

(** X6. [POST /api/test] answers what [POST /api/analyze-game] answers to
    the built-in sample body, and makes the same calls to the completion
    service, provided that the text of an exception raised by the service
    can be printed; the two differ only in what they print. *)
Theorem test_endpoint_as_analyze_game (w : World) :
  (forall c rq e, completions_create w c rq = Raise e -> loggable e = true) ->
  fst (test_endpoint py_repr w)
  = fst (api_analyze_game py_repr (mk_http_request (Ok sample_data)) w)
  /\ upstream_calls (snd (test_endpoint py_repr w))
     = upstream_calls (snd (api_analyze_game py_repr (mk_http_request (Ok sample_data)) w)).
Proof.
  intros Hs.
  rewrite (api_analyze_game_body sample_data w eq_refl).
  set (o := (stdout w ++ ["🧪 Running test with sample data..."])%list).
  assert (Ht : test_endpoint py_repr w =
                 match process_game_analysis py_repr sample_data (with_stdout o w) with
                 | (Ok r, w') => (Ok (jsonify r), w')
                 | (Raise e, w') => on_error "test endpoint" e w'
                 end).
  { unfold test_endpoint, try_except, bind, print, ret.
    change (encodable "🧪 Running test with sample data...") with true. cbv iota. fold o.
    destruct (process_game_analysis py_repr sample_data (with_stdout o w))
      as [[r | e] w']; reflexivity. }
  rewrite Ht. clear Ht.
  destruct (process_game_analysis_stdout sample_data o w) as [Hr Hu].
  destruct (process_game_analysis py_repr sample_data (with_stdout o w)) as [[r1 | e1] w1];
    destruct (process_game_analysis py_repr sample_data w) as [[r2 | e2] w2] eqn:Hp;
    cbn [fst snd] in Hr, Hu; try discriminate.
  - injection Hr as ->. split; [reflexivity | exact Hu].
  - injection Hr as ->.
    pose proof (process_game_analysis_loggable sample_data e2 w w2 Hs Hp) as Hl.
    destruct (on_error_result "test endpoint" e2 w1 (or_intror eq_refl) Hl) as (-> & -> & _).
    destruct (on_error_result "API" e2 w2 (or_introl eq_refl) Hl) as (-> & -> & _).
    split; [reflexivity | exact Hu].
Qed.

End Outcomes.

(** ** The identifier and the timestamps *)

Lemma string_forallb_append (p : ascii -> bool) (s1 s2 : string) :
  string_forallb p (s1 ++ s2) = string_forallb p s1 && string_forallb p s2.
Proof.
  induction s1 as [ | c s1 IH]; simpl; [reflexivity | ].
  rewrite IH. apply andb_assoc.
Qed.

Lemma string_forallb_slice (p : ascii -> bool) (n : nat) (s : string) :
  string_forallb p s = true -> string_forallb p (substring 0 n s) = true.
Proof.
  revert s. induction n as [ | n IH]; intros s H.
  - destruct s; reflexivity.
  - destruct s as [ | c s]; [reflexivity | ]. simpl in *.
    apply andb_prop in H. destruct H as [Hc Hs]. rewrite Hc. now apply IH.
Qed.

Lemma slice_append (a b : string) :
  substring 0 (String.length a) (a ++ b) = a.
Proof.
  induction a as [ | c a IH]; simpl.
  - destruct b; reflexivity.
  - now rewrite IH.
Qed.

Lemma hex_digits_of_uint (d : Hexadecimal.uint) :
  string_forallb is_hex_digit (HexadecimalString.NilEmpty.string_of_uint d) = true.
Proof. induction d; simpl; try reflexivity; exact IHd. Qed.

Lemma hex_digits_format_032x (n : N) :
  string_forallb is_hex_digit (format_032x n) = true.
Proof.
  unfold format_032x, zfill, format_x. rewrite string_forallb_append.
  apply andb_true_intro. split.
  - generalize (32 - String.length
                       (HexadecimalString.NilZero.string_of_uint (N.to_hex_uint n))).
    intros k. induction k as [ | k IH]; [reflexivity | ].
    destruct k as [ | k]; [reflexivity | ].
    change (repeat "0" (S (S k))) with ("0" :: repeat "0" (S k)).
    change (String.concat "" ("0" :: repeat "0" (S k)))
      with ("0" ++ "" ++ String.concat "" (repeat "0" (S k))).
    rewrite !string_forallb_append, IH. reflexivity.
  - unfold HexadecimalString.NilZero.string_of_uint.
    destruct (N.to_hex_uint n) eqn:E; try reflexivity;
      rewrite <- E; apply hex_digits_of_uint.
Qed.

(** The identifier is the first eight digits of the UUID's 32. *)
Lemma report_id_digits (u : N) :
  substring 0 8 (Uuid.str u) = substring 0 8 (format_032x u).
Proof.
  unfold Uuid.str. cbv zeta.
  assert (H : String.length (substring 0 8 (format_032x u)) = 8).
  { apply length_slice. unfold format_032x. rewrite length_zfill. lia. }
  rewrite <- H at 1. apply slice_append.
Qed.

Section Identifier.

Variable py_repr : pyval -> string.

(** X14. The [report_id] of a returned response is made of lower-case
    hexadecimal digits only. *)
Theorem report_id_hexadecimal (data r : pyval) (w w' : World) :
  process_game_analysis py_repr data w = (Ok r, w') ->
  exists rid,
    py_field r "report_id" = Some (PStr rid)
    /\ string_forallb is_hex_digit rid = true.
Proof.
  intros H.
  destruct (process_game_analysis_returned py_repr data r w w' H)
    as (bn & a & _ & -> & _).
  eexists. split; [reflexivity | ].
  rewrite report_id_digits. apply string_forallb_slice, hex_digits_format_032x.
Qed.

End Identifier.

Lemma append_empty (s : string) : s ++ "" = s.
Proof. induction s as [ | c s IH]; simpl; [reflexivity | now rewrite IH]. Qed.

Lemma digits_of_uint (d : Decimal.uint) (acc : Z) (rest : string) :
  Reader.digits (Decimal.nb_digits d) acc
    (DecimalString.NilEmpty.string_of_uint d ++ rest)
  = Some (fold_digits d acc, rest).
Proof.
  revert acc. induction d; intros acc; try (cbn [Decimal.nb_digits DecimalString.NilEmpty.string_of_uint fold_digits]; simpl Reader.digits; apply IHd).
  reflexivity.
Qed.

Lemma length_of_uint (d : Decimal.uint) :
  String.length (DecimalString.NilEmpty.string_of_uint d) = Decimal.nb_digits d.
Proof. induction d; simpl; congruence. Qed.

Lemma fold_of_uint_acc (d : Decimal.uint) (p : positive) :
  fold_digits d (Zpos p) = Zpos (Pos.of_uint_acc d p).
Proof.
  revert p. induction d; intros p; cbn [Pos.of_uint_acc fold_digits];
    try reflexivity;
    match goal with
    | |- fold_digits _ ?a = Zpos (Pos.of_uint_acc _ ?q) =>
        replace a with (Zpos q) by lia; apply IHd
    end.
Qed.

Lemma fold_of_uint (d : Decimal.uint) :
  fold_digits d 0 = Z.of_N (Pos.of_uint d).
Proof.
  induction d; cbn [fold_digits Pos.of_uint]; try reflexivity;
    try (apply IHd);
    match goal with
    | |- fold_digits _ ?a = Z.of_N (Npos (Pos.of_uint_acc _ ?q)) =>
        change a with (Zpos q); apply fold_of_uint_acc
    end.
Qed.

Lemma fold_lower (d : Decimal.uint) (acc : Z) :
  (0 <= acc)%Z -> (acc * 10 ^ Z.of_nat (Decimal.nb_digits d) <= fold_digits d acc)%Z.
Proof.
  revert acc. induction d; intros acc H; cbn [fold_digits Decimal.nb_digits];
    [ simpl; lia | .. ];
    rewrite Nat2Z.inj_succ, Z.pow_succ_r by lia;
    match goal with
    | |- (_ <= fold_digits _ ?a)%Z =>
        specialize (IHd a ltac:(lia));
        assert (0 <= 10 ^ Z.of_nat (Decimal.nb_digits d))%Z by (apply Z.pow_nonneg; lia);
        nia
    end.
Qed.

Lemma nzhead_head (d l : Decimal.uint) : Decimal.nzhead d <> Decimal.D0 l.
Proof. induction d; simpl; try discriminate. exact IHd. Qed.

(** The decimal digits of a number below [10 ^ width] are at most [width]. *)
Lemma nb_digits_to_uint (width : nat) (n : N) :
  1 <= width -> (Z.of_N n < 10 ^ Z.of_nat width)%Z ->
  Decimal.nb_digits (N.to_uint n) <= width.
Proof.
  intros Hw Hn.
  pose proof (DecimalN.Unsigned.of_to n) as Hof.
  pose proof (DecimalN.Unsigned.to_of (N.to_uint n)) as Hto. rewrite Hof in Hto.
  pose proof (fold_of_uint (N.to_uint n)) as Hf.
  change (Pos.of_uint (N.to_uint n)) with (N.of_uint (N.to_uint n)) in Hf.
  rewrite Hof in Hf.
  unfold Decimal.unorm in Hto.
  pose proof (nzhead_head (N.to_uint n)) as Hh.
  destruct (Decimal.nzhead (N.to_uint n)) eqn:E;
    try (rewrite Hto; simpl; lia);
    try (exfalso; eapply Hh; reflexivity);
    rewrite Hto in Hf |- *; cbn [fold_digits Decimal.nb_digits] in Hf |- *;
    match type of Hf with
    | fold_digits ?l ?a = _ =>
        pose proof (fold_lower l a ltac:(lia)) as Hl
    end;
    assert (Hlt : (10 ^ Z.of_nat (Decimal.nb_digits u) < 10 ^ Z.of_nat width)%Z)
      by (assert (0 < 10 ^ Z.of_nat (Decimal.nb_digits u))%Z by (apply Z.pow_pos_nonneg; lia); nia);
    apply Z.pow_lt_mono_r_iff in Hlt; lia.
Qed.

Lemma zeros_succ (k : nat) :
  String.concat "" (repeat "0" (S k)) = String "0" (String.concat "" (repeat "0" k)).
Proof. destruct k; reflexivity. Qed.

Lemma digits_zeros (k m : nat) (s : string) :
  Reader.digits (k + m) 0 (String.concat "" (repeat "0" k) ++ s) = Reader.digits m 0 s.
Proof.
  induction k as [ | k IH]; [reflexivity | ].
  rewrite zeros_succ. exact IH.
Qed.

(** A number below [10 ^ width], printed on [width] digits, is read back. *)
Lemma reads_back_below (width : nat) (n : Z) :
  1 <= width -> (0 <= n < 10 ^ Z.of_nat width)%Z -> reads_back width n = true.
Proof.
  intros Hw Hn. unfold reads_back, format_0d, zfill, format_d.
  set (d := N.to_uint (Z.to_N n)).
  assert (Hd : Decimal.nb_digits d <= width).
  { apply nb_digits_to_uint; [exact Hw | rewrite Z2N.id by lia; lia]. }
  assert (Hs : DecimalString.NilZero.string_of_uint d
               = DecimalString.NilEmpty.string_of_uint d).
  { unfold DecimalString.NilZero.string_of_uint.
    destruct d eqn:E; try reflexivity.
    exfalso. subst d. destruct (Z.to_N n); [discriminate | ].
    simpl in E. revert E. apply DecimalPos.Unsigned.to_uint_nonnil. }
  rewrite Hs, length_of_uint.
  replace width with ((width - Decimal.nb_digits d) + Decimal.nb_digits d) at 1 by lia.
  rewrite digits_zeros.
  rewrite <- (append_empty (DecimalString.NilEmpty.string_of_uint d)).
  rewrite digits_of_uint, fold_of_uint.
  change (Pos.of_uint d) with (N.of_uint d). unfold d.
  rewrite DecimalN.Unsigned.of_to, Z2N.id by lia.
  apply Z.eqb_refl.
Qed.

Lemma reads_back_6 (n : Z) : (0 <= n < 1000000)%Z -> reads_back 6 n = true.
Proof. intros H. apply reads_back_below; [lia | exact H]. Qed.

Lemma valid_datetime_fields (t : datetime) :
  valid_datetime t = true ->
  (1 <= year t <= 9999 /\ 1 <= month t <= 12 /\ 1 <= day t <= 31
   /\ 0 <= hour t < 24 /\ 0 <= minute t < 60 /\ 0 <= second t < 60
   /\ 0 <= microsecond t < 1000000)%Z.
Proof.
  intros V. unfold valid_datetime in V.
  repeat (apply andb_prop in V; destruct V as [V ?]).
  repeat match goal with
         | H : (_ <=? _)%Z = true |- _ => apply Z.leb_le in H
         | H : (_ <? _)%Z = true |- _ => apply Z.ltb_lt in H
         end.
  assert (days_in_month (year t) (month t) <= 31)%Z; [ | lia ].
  unfold days_in_month.
  destruct (month t) as [ | p | p ]; try lia.
  do 4 (try destruct p as [ p | p | ]; try lia);
    destruct (is_leap (year t)); lia.
Qed.

(** The ISO text of a valid [datetime] is read back as that [datetime],
    microseconds included. *)
Lemma isoformat_reads_back (t : datetime) :
  valid_datetime t = true -> parse_isoformat (isoformat t) = Some t.
Proof.
  intros V. destruct (valid_datetime_fields t V) as (Hy & Hmo & Hd & Hh & Hmi & Hs & Hus).
  unfold parse_isoformat, isoformat.
  rewrite digits_format by (apply reads_back_4; lia). cbn [Reader.and_then].
  rewrite strip_app. cbn [Reader.and_then].
  rewrite digits_format by (apply reads_back_2; lia). cbn [Reader.and_then].
  rewrite strip_app. cbn [Reader.and_then].
  rewrite digits_format by (apply reads_back_2; lia). cbn [Reader.and_then].
  rewrite strip_app. cbn [Reader.and_then].
  rewrite digits_format by (apply reads_back_2; lia). cbn [Reader.and_then].
  rewrite strip_app. cbn [Reader.and_then].
  rewrite digits_format by (apply reads_back_2; lia). cbn [Reader.and_then].
  rewrite strip_app. cbn [Reader.and_then].
  rewrite digits_format by (apply reads_back_2; lia). cbn [Reader.and_then].
  destruct t as [y mo d h mi sec us]. cbn [year month day hour minute second microsecond] in *.
  destruct (us =? 0)%Z eqn:E.
  - apply Z.eqb_eq in E. subst us. cbn [Reader.and_then]. rewrite V. reflexivity.
  - change ("." ++ format_0d 6 us) with (String "." (format_0d 6 us)).
    cbv iota. change (String "." (format_0d 6 us)) with ("." ++ format_0d 6 us).
    rewrite strip_app. cbn [Reader.and_then].
    rewrite <- (append_empty (format_0d 6 us)) at 1.
    rewrite digits_format by (apply reads_back_6; lia).
    cbn [Reader.and_then]. rewrite V. reflexivity.
Qed.

Lemma digits_length (k : nat) (acc v : Z) (s : string) :
  Reader.digits k acc s = Some (v, EmptyString) -> String.length s = k.
Proof.
  revert acc s. induction k as [ | k IH]; intros acc s H; simpl in H.
  - injection H as _ ->. reflexivity.
  - destruct s as [ | c s]; [discriminate | ].
    destruct (Reader.digit_of_ascii c); [ | discriminate ].
    simpl. f_equal. exact (IH _ _ H).
Qed.

Lemma reads_back_length (width : nat) (n : Z) :
  reads_back width n = true -> String.length (format_0d width n) = width.
Proof.
  unfold reads_back. intros H.
  destruct (Reader.digits width 0 (format_0d width n)) as [[v [ | ]] | ] eqn:E;
    try discriminate.
  exact (digits_length _ _ _ _ E).
Qed.

(** X15. The [timestamp] of [GET /api/health] is the clock's reading in ISO
    form: it is read back as exactly that [datetime], and the fraction is
    left out when the microseconds are zero. *)
Theorem health_timestamp_reads_back (w : World) :
  valid_datetime (clock w) = true ->
  exists h ts,
    fst (health_check w) = Ok h
    /\ status h = 200%Z
    /\ py_field (body h) "timestamp" = Some (PStr ts)
    /\ parse_isoformat ts = Some (clock w)
    /\ String.length ts = (if (microsecond (clock w) =? 0)%Z then 19 else 26).
Proof.
  intros V. eexists. eexists. split; [reflexivity | ].
  split; [reflexivity | ]. split; [reflexivity | ].
  split; [apply isoformat_reads_back; exact V | ].
  unfold isoformat. rewrite !length_append.
  unfold format_0d. rewrite !length_zfill.
  destruct (valid_datetime_fields _ V) as (Hy & Hmo & Hd & Hh & Hmi & Hs & Hus).
  assert (L : forall width n, reads_back width n = true ->
                              String.length (format_d n) <= width).
  { intros width n H.
    pose proof (length_zfill width (format_d n)) as Hz.
    fold (format_0d width n) in Hz.
    rewrite (reads_back_length width n H) in Hz. lia. }
  pose proof (L 4 _ (reads_back_4 (year (clock w)) ltac:(lia))).
  pose proof (L 2 _ (reads_back_2 (month (clock w)) ltac:(lia))).
  pose proof (L 2 _ (reads_back_2 (day (clock w)) ltac:(lia))).
  pose proof (L 2 _ (reads_back_2 (hour (clock w)) ltac:(lia))).
  pose proof (L 2 _ (reads_back_2 (minute (clock w)) ltac:(lia))).
  pose proof (L 2 _ (reads_back_2 (second (clock w)) ltac:(lia))).
  pose proof (L 6 _ (reads_back_6 (microsecond (clock w)) ltac:(lia))).
  destruct (microsecond (clock w) =? 0)%Z.
  - simpl String.length. lia.
  - rewrite length_append, length_zfill. simpl String.length. lia.
Qed.

(** ** The [__main__] block *)

Lemma bind_print {B : Type} (line : string) (k : unit -> M B) (w : World) :
  encodable line = true ->
  bind (print line) k w = k tt (with_stdout (stdout w ++ [line])%list w).
Proof. intros H. unfold bind, print. rewrite H. reflexivity. Qed.

Lemma bind_os_environ_get {B : Type} (name : string) (k : option string -> M B) (w : World) :
  bind (os_environ_get name) k w = k (environ_get (environ w) name) w.
Proof. reflexivity. Qed.

Lemma bind_lift {A B : Type} (r : result A) (k : A -> M B) (w : World) :
  bind (lift r) k w = match r with Ok a => k a w | Raise e => (Raise e, w) end.
Proof. unfold bind, lift. destruct r; reflexivity. Qed.

(** A text without the byte [ED] holds no surrogate. *)
Lemma encodable_no_ED (s : string) :
  string_forallb (fun c => negb (is_lead_ED c)) s = true -> encodable s = true.
Proof.
  intros H. unfold encodable.
  rewrite <- (append_empty s), (has_surrogate_after s EmptyString H). reflexivity.
Qed.

Lemma no_ED_of_uint (d : Decimal.uint) :
  string_forallb (fun c => negb (is_lead_ED c))
    (DecimalString.NilEmpty.string_of_uint d) = true.
Proof. induction d; simpl; try reflexivity; exact IHd. Qed.

Lemma no_ED_format_int (n : Z) :
  string_forallb (fun c => negb (is_lead_ED c)) (format_int n) = true.
Proof.
  assert (H : forall m, string_forallb (fun c => negb (is_lead_ED c)) (format_d m) = true).
  { intros m. unfold format_d, DecimalString.NilZero.string_of_uint.
    destruct (N.to_uint (Z.to_N m)) eqn:E; try reflexivity;
      rewrite <- E; apply no_ED_of_uint. }
  unfold format_int. destruct (n <? 0)%Z; [ | apply H ].
  rewrite string_forallb_append, H. reflexivity.
Qed.

(** The lines of the block can all be printed. *)
Lemma encodable_key_line (b : bool) :
  encodable ("   OPENAI_KEY: " ++ (if b then "✅ Set" else "❌ Missing")) = true.
Proof. destruct b; reflexivity. Qed.

Lemma encodable_port_line (prefix : string) (n : Z) :
  string_forallb (fun c => negb (is_lead_ED c)) prefix = true ->
  encodable (prefix ++ format_int n) = true.
Proof.
  intros H. apply encodable_no_ED.
  rewrite string_forallb_append, H. apply no_ED_format_int.
Qed.

Section MainBlock.

Variable py_int : string -> result Z.

(** The block up to the reading of the port. *)
Lemma main_banner (w : World) :
  main py_int w =
    let w3 := with_stdout (stdout w ++ banner w)%list w in
    match (match environ_get (environ w) "PORT" with
           | Some s => py_int s
           | None => Ok 5000%Z
           end) with
    | Raise e => (Raise e, w3)
    | Ok port =>
        if truthy (py_or (environ_get (environ w) "RAILWAY_ENVIRONMENT")
                     (environ_get (environ w) "PORT"))
        then
          (Ok (mk_run_args false "0.0.0.0" port),
           with_stdout
             (stdout w ++ banner w
                ++ [("🌐 Production mode detected, running on port " ++ format_int port)%string;
                    "💡 Note: In production, use 'gunicorn --bind 0.0.0.0:$PORT main:app' instead"])%list w)
        else
          (Ok (mk_run_args false "0.0.0.0" port),
           with_stdout
             (stdout w ++ banner w
                ++ [("🛠️ Development mode, running on port " ++ format_int port)%string])%list w)
    end.
Proof.
  unfold main.
  rewrite bind_print by reflexivity.
  rewrite bind_print by reflexivity.
  rewrite !bind_os_environ_get.
  rewrite bind_print by apply encodable_key_line.
  rewrite bind_os_environ_get, bind_lift.
  cbn [environ with_stdout stdout]. cbv zeta.
  assert (Hb : (((stdout w ++ ["🚀 Starting Game Dev Vizier API..."])
                   ++ ["📧 Environment Variables Check:"])
                 ++ [("   OPENAI_KEY: "
                        ++ (if truthy (py_or (environ_get (environ w) "OPENAI_KEY")
                                         (environ_get (environ w) "OPENAI_API_KEY"))
                            then "✅ Set" else "❌ Missing"))%string]
               = stdout w ++ banner w)%list).
  { unfold banner. rewrite <- !app_assoc. reflexivity. }
  rewrite Hb.
  destruct (match environ_get (environ w) "PORT" with
            | Some s => py_int s
            | None => Ok 5000%Z
            end) as [port | e]; [ | reflexivity ].
  rewrite !bind_os_environ_get. cbn [environ with_stdout stdout].
  destruct (truthy (py_or (environ_get (environ w) "RAILWAY_ENVIRONMENT")
                      (environ_get (environ w) "PORT"))).
  - unfold bind at 1.
    rewrite bind_print by (apply encodable_port_line; reflexivity).
    unfold print. change (encodable "💡 Note: In production, use 'gunicorn --bind 0.0.0.0:$PORT main:app' instead") with true.
    cbv iota beta. unfold ret. cbn [with_stdout stdout].
    rewrite <- !app_assoc. reflexivity.
  - rewrite bind_print by (apply encodable_port_line; reflexivity).
    unfold ret. cbn [with_stdout stdout]. rewrite <- !app_assoc. reflexivity.
Qed.

(** X16. Without [PORT] in the environment the server is started on port
    5000, on all interfaces and with debugging off; the mode line says
    production exactly when [RAILWAY_ENVIRONMENT] is set to a non-empty
    text, and development otherwise. *)
Theorem main_default_port (w : World) :
  environ_get (environ w) "PORT" = None ->
  let out := main py_int w in
  fst out = Ok (mk_run_args false "0.0.0.0" 5000)
  /\ stdout (snd out) =
       (stdout w ++ banner w
          ++ if truthy (environ_get (environ w) "RAILWAY_ENVIRONMENT")
             then ["🌐 Production mode detected, running on port 5000";
                   "💡 Note: In production, use 'gunicorn --bind 0.0.0.0:$PORT main:app' instead"]
             else ["🛠️ Development mode, running on port 5000"])%list.
Proof.
  intros Hp. cbv zeta. rewrite main_banner, Hp. cbv zeta.
  assert (Hor : truthy (py_or (environ_get (environ w) "RAILWAY_ENVIRONMENT") None)
                = truthy (environ_get (environ w) "RAILWAY_ENVIRONMENT")).
  { unfold py_or.
    destruct (truthy (environ_get (environ w) "RAILWAY_ENVIRONMENT")) eqn:Hr;
      [exact Hr | reflexivity]. }
  rewrite Hor.
  destruct (truthy (environ_get (environ w) "RAILWAY_ENVIRONMENT")); split; reflexivity.
Qed.

(** X17. With [PORT] set to a non-empty text that [int] accepts, the server
    is started on that port and the mode line says production, whether
    [RAILWAY_ENVIRONMENT] is set or not. *)
Theorem main_port_from_environment (w : World) (s : string) (n : Z) :
  environ_get (environ w) "PORT" = Some s ->
  truthy (Some s) = true ->
  py_int s = Ok n ->
  let out := main py_int w in
  fst out = Ok (mk_run_args false "0.0.0.0" n)
  /\ stdout (snd out) =
       (stdout w ++ banner w
          ++ [("🌐 Production mode detected, running on port " ++ format_int n)%string;
              "💡 Note: In production, use 'gunicorn --bind 0.0.0.0:$PORT main:app' instead"])%list.
Proof.
  intros Hp Ht Hn. cbv zeta. rewrite main_banner, Hp, Hn. cbv zeta.
  assert (Hor : truthy (py_or (environ_get (environ w) "RAILWAY_ENVIRONMENT") (Some s))
                = true).
  { unfold py_or.
    destruct (truthy (environ_get (environ w) "RAILWAY_ENVIRONMENT")) eqn:Hr;
      [exact Hr | exact Ht]. }
  rewrite Hor. split; reflexivity.
Qed.

(** X18. With [PORT] set to a text that [int] rejects, the block raises
    that exception after its three lines of banner: no mode line is printed
    and the server is not started. *)
Theorem main_bad_port (w : World) (s : string) (e : exn) :
  environ_get (environ w) "PORT" = Some s ->
  py_int s = Raise e ->
  let out := main py_int w in
  fst out = Raise e
  /\ stdout (snd out) = (stdout w ++ banner w)%list.
Proof.
  intros Hp He. cbv zeta. rewrite main_banner, Hp, He. split; reflexivity.
Qed.

End MainBlock.

(** ** The further properties at concrete requests *)

Lemma home_key_set_implies_ready_witness :
  exists r key_set ready,
    fst (home (snd (init_client world_api_key))) = Ok r
    /\ py_field2 (body r) "environment_check" "openai_key_set" = Some (PBool key_set)
    /\ py_field2 (body r) "environment_check" "client_ready" = Some (PBool ready)
    /\ (key_set = true -> ready = true).
Proof.
  apply (home_key_set_implies_ready world_api_key).
  intros key. exists (mk_OpenAI key). reflexivity.
Defined.

Lemma init_client_never_raises_witness :
  fst (init_client world_bad_ctor) = Ok tt
  /\ exists line,
       stdout (snd (init_client world_bad_ctor)) = (stdout world_bad_ctor ++ [line])%list.
Proof.
  apply (init_client_never_raises world_bad_ctor).
  intros key e H. injection H as <-. reflexivity.
Defined.

Lemma init_client_handle_witness :
  client (globals (snd (init_client world_bad_ctor))) =
    match resolved_key (environ world_bad_ctor) with
    | Some (String a k) =>
        match openai_new world_bad_ctor (String a k) with
        | Ok c => Some c
        | Raise _ => None
        end
    | _ => None
    end
  /\ api_key (globals (snd (init_client world_bad_ctor)))
     = resolved_key (environ world_bad_ctor).
Proof.
  apply (init_client_handle world_bad_ctor).
  intros key e H. injection H as <-. reflexivity.
Defined.

Lemma api_analyze_game_always_answers_witness :
  exists r,
    fst (api_analyze_game no_repr (mk_http_request (Ok (PDict body0))) world_down) = Ok r
    /\ ((status r = 200%Z /\ dict_keys (body r) = analysis_keys)
        \/ ((status r = 400%Z \/ status r = 500%Z) /\ dict_keys (body r) = error_keys)).
Proof.
  apply (api_analyze_game_always_answers no_repr
           (mk_http_request (Ok (PDict body0))) world_down).
  - intros e H. discriminate H.
  - intros c rq e H. injection H as <-. reflexivity.
Defined.

Lemma test_endpoint_as_analyze_game_witness :
  fst (test_endpoint no_repr world_down)
  = fst (api_analyze_game no_repr (mk_http_request (Ok sample_data)) world_down)
  /\ upstream_calls (snd (test_endpoint no_repr world_down))
     = upstream_calls
         (snd (api_analyze_game no_repr (mk_http_request (Ok sample_data)) world_down)).
Proof.
  apply (test_endpoint_as_analyze_game no_repr world_down).
  intros c rq e H. injection H as <-. reflexivity.
Defined.

Lemma upstream_exception_answer_witness :
  let out := api_analyze_game no_repr (mk_http_request (Ok (PDict body0))) world_down in
  fst out = Ok (error_response (OtherError "Connection error."))
  /\ upstream_calls (snd out) =
       (upstream_calls world_down
          ++ [request_for no_repr
                (PStr "A turn-based tactics game set on a derelict space station.")])%list
  /\ stdout (snd out) =
       (stdout world_down ++ [log_line no_repr (PStr "Space Tactics")]
          ++ if is_ValueError (OtherError "Connection error.") then []
             else [("❌ Error in API: " ++ exn_str (OtherError "Connection error."))%string])%list.
Proof.
  apply (upstream_exception_answer no_repr body0 (PStr "Space Tactics")
           (PStr "A turn-based tactics game set on a derelict space station.")
           (mk_OpenAI "sk-test") (OtherError "Connection error.") world_down);
    reflexivity.
Defined.

Lemma no_choice_answer_witness :
  let out := api_analyze_game no_repr (mk_http_request (Ok (PDict body0))) world_no_choice in
  fst out = Ok (mk_response 500 (PDict [("error", PStr "list index out of range")]))
  /\ upstream_calls (snd out) =
       (upstream_calls world_no_choice
          ++ [request_for no_repr
                (PStr "A turn-based tactics game set on a derelict space station.")])%list.
Proof.
  apply (no_choice_answer no_repr body0 (PStr "Space Tactics")
           (PStr "A turn-based tactics game set on a derelict space station.")
           (mk_OpenAI "sk-test") (mk_completion []) world_no_choice);
    reflexivity.
Defined.

Lemma first_choice_answer_witness :
  exists r,
    fst (api_analyze_game no_repr (mk_http_request (Ok (PDict body0))) world_no_text) = Ok r
    /\ status r = 200%Z
    /\ py_field (body r) "success" = Some (PBool true)
    /\ py_field (body r) "analysis" =
         Some (match message_content (mk_choice None) with
               | Some text => PStr text
               | None => PNone
               end).
Proof.
  apply (first_choice_answer no_repr body0 (PStr "Space Tactics")
           (PStr "A turn-based tactics game set on a derelict space station.")
           (mk_OpenAI "sk-test")
           (mk_completion [mk_choice None; mk_choice (Some "second")])
           (mk_choice None) [mk_choice (Some "second")] world_no_text);
    reflexivity.
Defined.

Lemma non_dict_body_rejected_witness :
  let out :=
    api_analyze_game no_repr
      (mk_http_request (Ok (PList [PStr "business_name"; PStr "game_data"]))) world1 in
  (exists r, fst out = Ok r /\ (status r = 400%Z \/ status r = 500%Z)
             /\ dict_keys (body r) = error_keys)
  /\ upstream_calls (snd out) = upstream_calls world1.
Proof.
  apply (non_dict_body_rejected no_repr
           (PList [PStr "business_name"; PStr "game_data"]) world1).
  reflexivity.
Defined.

Lemma json_exception_answer_witness :
  let out :=
    api_analyze_game no_repr
      (mk_http_request (Raise (OtherError "400 Bad Request: Failed to decode JSON object")))
      world1 in
  fst out = Ok (error_response (OtherError "400 Bad Request: Failed to decode JSON object"))
  /\ upstream_calls (snd out) = upstream_calls world1.
Proof.
  apply (json_exception_answer no_repr
           (mk_http_request (Raise (OtherError "400 Bad Request: Failed to decode JSON object")))
           (OtherError "400 Bad Request: Failed to decode JSON object") world1);
    reflexivity.
Defined.

Lemma report_id_hexadecimal_witness :
  exists rid,
    py_field (analysis_response (PStr "Space Tactics") (PStr not_initialized) world0)
      "report_id" = Some (PStr rid)
    /\ string_forallb is_hex_digit rid = true.
Proof.
  apply (report_id_hexadecimal no_repr (PDict body0)
           (analysis_response (PStr "Space Tactics") (PStr not_initialized) world0)
           world0
           (with_stdout [log_line no_repr (PStr "Space Tactics")] world0)).
  reflexivity.
Defined.

Lemma health_timestamp_reads_back_witness :
  exists h ts,
    fst (health_check world0) = Ok h
    /\ status h = 200%Z
    /\ py_field (body h) "timestamp" = Some (PStr ts)
    /\ parse_isoformat ts = Some (clock world0)
    /\ String.length ts = (if (microsecond (clock world0) =? 0)%Z then 19 else 26).
Proof.
  apply (health_timestamp_reads_back world0). reflexivity.
Defined.

Lemma main_default_port_witness :
  let out := main int_8080 world_railway in
  fst out = Ok (mk_run_args false "0.0.0.0" 5000)
  /\ stdout (snd out) =
       (stdout world_railway ++ banner world_railway
          ++ if truthy (environ_get (environ world_railway) "RAILWAY_ENVIRONMENT")
             then ["🌐 Production mode detected, running on port 5000";
                   "💡 Note: In production, use 'gunicorn --bind 0.0.0.0:$PORT main:app' instead"]
             else ["🛠️ Development mode, running on port 5000"])%list.
Proof.
  apply (main_default_port int_8080 world_railway). reflexivity.
Defined.

Lemma main_port_from_environment_witness :
  let out := main int_8080 world_port in
  fst out = Ok (mk_run_args false "0.0.0.0" 8080)
  /\ stdout (snd out) =
       (stdout world_port ++ banner world_port
          ++ [("🌐 Production mode detected, running on port " ++ format_int 8080)%string;
              "💡 Note: In production, use 'gunicorn --bind 0.0.0.0:$PORT main:app' instead"])%list.
Proof.
  apply (main_port_from_environment int_8080 world_port "8080" 8080); reflexivity.
Defined.

Lemma main_bad_port_witness :
  let out := main int_8080 world_bad_port in
  fst out =
    Raise (ValueError ("invalid literal for int() with base 10: " ++ sq ++ "eighty" ++ sq))
  /\ stdout (snd out) = (stdout world_bad_port ++ banner world_bad_port)%list.
Proof.
  apply (main_bad_port int_8080 world_bad_port "eighty"
           (ValueError ("invalid literal for int() with base 10: " ++ sq ++ "eighty" ++ sq)));
    reflexivity.
Defined.

(** ** Examples for the further properties *)

Example ex_init_client_priority :
  globals (snd (init_client world_api_key))
  = mk_globals (Some "sk-api") (Some (mk_OpenAI "sk-api")).
Proof. reflexivity. Qed.

Example ex_no_text :
  py_field (body (mk_response 200
                    (analysis_response (PStr "X") PNone world0))) "analysis"
  = Some PNone.
Proof. reflexivity. Qed.

Example ex_list_body :
  fst (api_analyze_game no_repr
         (mk_http_request (Ok (PList [PStr "business_name"]))) world1)
  = Ok (mk_response 500
          (PDict [("error", PStr "list indices must be integers or slices, not str")])).
Proof. reflexivity. Qed.

Example ex_text_body :
  fst (api_analyze_game no_repr (mk_http_request (Ok (PStr "hello"))) world1)
  = Ok (mk_response 400 (PDict [("error", PStr "Missing required field: business_name")])).
Proof. reflexivity. Qed.

Example ex_main_development :
  stdout (snd (main int_8080 world0))
  = ["🚀 Starting Game Dev Vizier API...";
     "📧 Environment Variables Check:";
     "   OPENAI_KEY: ❌ Missing";
     "🛠️ Development mode, running on port 5000"].
Proof. reflexivity. Qed.

(** Before the year 1000 the year is written on fewer than four digits, and
    the timestamp is not read back under the pattern. *)
Example ex_year_999 :
  strftime "%B %d, %Y at %I:%M %p" (clock world_999) = "January 01, 999 at 12:00 AM"
  /\ Reader.parse_generated_at "January 01, 999 at 12:00 AM" = None.
Proof. split; reflexivity. Qed.

(** The exception of [print] names the first run of surrogates by its index
    in characters, not in bytes. *)
Example ex_encode_error_run :
  unicode_encode_error
    ("é" ++ String "237" (String "176" (String "128" surrogate_text)) ++ "x")
  = "'utf-8' codec can't encode characters in position 1-2: surrogates not allowed".
Proof. reflexivity. Qed.

(** A name that cannot be printed ends the request before any call, also
    with a client. *)
Example ex_unprintable_name_no_call :
  upstream_calls
    (snd (api_analyze_game no_repr (mk_http_request (Ok (PDict body_surrogate))) world1))
  = [].
Proof. reflexivity. Qed.

(** When the text of an exception cannot be printed, the [print] of the
    [except] clause raises in its turn: the start-up code and the route then
    raise instead of going on. *)
Example ex_init_client_unprintable :
  fst (init_client
         (mk_world (mk_globals None None) [("OPENAI_KEY", "sk-key")]
            (clock world0) (entropy world0)
            (fun _ => Raise (OtherError surrogate_text))
            (completions_create world0) [] []))
  = Raise (ValueError
             "'utf-8' codec can't encode character '\ud800' in position 38: surrogates not allowed").
Proof. reflexivity. Qed.

Example ex_route_unprintable :
  fst (api_analyze_game no_repr
         (mk_http_request (Raise (OtherError surrogate_text))) world0)
  = Raise (ValueError
             "'utf-8' codec can't encode character '\ud800' in position 16: surrogates not allowed").
Proof. reflexivity. Qed.
